(** * Spanish identity documents (NIF / NIE): the validator of
      [validar_documento.py], embedded and checked against its specification.

    The embedding follows the Python source method by method.  A Python [str]
    is a sequence of Unicode code points; exceptions are explicit results; the
    validator object is threaded through every method so that what a call
    leaves behind can be stated. *)

From Stdlib Require Import ZArith NArith List Bool Lia String Ascii.
From Stdlib Require Import Zdivisibility.
Import ListNotations.

(* ================================================================== *)
(** ** The Python runtime the validator relies on *)
(* ================================================================== *)

Module Py.

(** A [str] is a list of code points. *)
Definition str := list N.

(** Decoding of a UTF-8 literal of this file into code points, so that the
    literals of the source can be written as they stand. *)
Fixpoint utf8 (bs : list N) (need : nat) (acc : N) : str :=
  match bs with
  | [] => []
  | b :: bs' =>
      match need with
      | O =>
          if (b <? 0x80)%N then b :: utf8 bs' 0 0%N
          else if (b <? 0xE0)%N then utf8 bs' 1 (N.land b 0x1F)
          else if (b <? 0xF0)%N then utf8 bs' 2 (N.land b 0x0F)
          else utf8 bs' 3 (N.land b 0x07)
      | S O => (acc * 64 + N.land b 0x3F)%N :: utf8 bs' 0 0%N
      | S n => utf8 bs' n (acc * 64 + N.land b 0x3F)%N
      end
  end.

Definition u (s : string) : str :=
  utf8 (map N_of_ascii (list_ascii_of_string s)) 0 0%N.
Arguments u s%_string.

Definition str_eqb (a b : str) : bool :=
  if list_eq_dec N.eq_dec a b then true else false.

(** Exceptions the modelled operations can raise. *)
Inductive exn := ValueError | KeyError | IndexError.

Inductive result (A : Type) :=
| Ok (a : A)
| Raise (e : exn).
Arguments Ok {A} a.
Arguments Raise {A} e.

(** [len(s)] *)
Definition len (s : str) : Z := Z.of_nat (List.length s).

(** [s[i]]: a one-character [str]; negative indices count from the end;
    out of range raises [IndexError]. *)
Definition getitem (s : str) (i : Z) : result str :=
  let j := (if i <? 0 then i + len s else i)%Z in
  if ((0 <=? j) && (j <? len s))%Z
  then match nth_error s (Z.to_nat j) with
       | Some c => Ok [c]
       | None => Raise IndexError
       end
  else Raise IndexError.

(** [s[start:stop]] with step 1; [None] is an omitted bound; bounds are
    clamped, never an error. *)
Definition slice (s : str) (start stop : option Z) : str :=
  let n := len s in
  let clamp i := (if i <? 0 then Z.max 0 (i + n) else Z.min i n)%Z in
  let lo := match start with Some i => clamp i | None => 0%Z end in
  let hi := match stop with Some i => clamp i | None => n end in
  firstn (Z.to_nat (hi - lo)) (skipn (Z.to_nat lo) s).

(** [d[k]] on a dict literal with [str] keys: [KeyError] when absent. *)
Fixpoint dict_getitem (d : list (str * str)) (k : str) : result str :=
  match d with
  | [] => Raise KeyError
  | (k', v) :: d' => if str_eqb k' k then Ok v else dict_getitem d' k
  end.

(** *** Unicode character database (version 14.0.0, as in CPython 3.11)

    Every decimal digit of Unicode lies in a run of ten consecutive code
    points with values 0 to 9; the list holds the zero of each run. *)
Definition decimal_zeros : list N :=
  [ 0x30; 0x660; 0x6f0; 0x7c0; 0x966; 0x9e6; 0xa66; 0xae6; 0xb66; 0xbe6;
    0xc66; 0xce6; 0xd66; 0xde6; 0xe50; 0xed0; 0xf20; 0x1040; 0x1090;
    0x17e0; 0x1810; 0x1946; 0x19d0; 0x1a80; 0x1a90; 0x1b50; 0x1bb0;
    0x1c40; 0x1c50; 0xa620; 0xa8d0; 0xa900; 0xa9d0; 0xa9f0; 0xaa50;
    0xabf0; 0xff10; 0x104a0; 0x10d30; 0x11066; 0x110f0; 0x11136; 0x111d0;
    0x112f0; 0x11450; 0x114d0; 0x11650; 0x116c0; 0x11730; 0x118e0;
    0x11950; 0x11c50; 0x11d50; 0x11da0; 0x16a60; 0x16ac0; 0x16b50;
    0x1d7ce; 0x1d7d8; 0x1d7e2; 0x1d7ec; 0x1d7f6; 0x1e140; 0x1e2f0;
    0x1e950; 0x1fbf0 ]%N.

(** [Py_UNICODE_TODECIMAL]: the decimal value of a code point, if any. *)
Definition Py_UNICODE_TODECIMAL (c : N) : option N :=
  match find (fun z => (z <=? c) && (c <? z + 10))%N decimal_zeros with
  | Some z => Some (c - z)%N
  | None => None
  end.

(** [Py_UNICODE_ISDECIMAL] *)
Definition Py_UNICODE_ISDECIMAL (c : N) : bool :=
  match Py_UNICODE_TODECIMAL c with Some _ => true | None => false end.

(** [Py_UNICODE_ISSPACE] *)
Definition Py_UNICODE_ISSPACE (c : N) : bool :=
  ((0x9 <=? c) && (c <=? 0xd) || (0x1c <=? c) && (c <=? 0x20)
   || (c =? 0x85) || (c =? 0xa0) || (c =? 0x1680)
   || (0x2000 <=? c) && (c <=? 0x200a)
   || (c =? 0x2028) || (c =? 0x2029) || (c =? 0x202f) || (c =? 0x205f)
   || (c =? 0x3000))%N.

(** [Py_ISSPACE], the ASCII-only test used by the number parser. *)
Definition Py_ISSPACE (c : N) : bool :=
  ((0x9 <=? c) && (c <=? 0xd) || (c =? 0x20))%N.

(** *** [int(s)] for a [str] argument, base 10 *)

(** [_PyUnicode_TransformDecimalAndSpaceToASCII]: code points below 127
    are kept, other white space becomes a blank, other decimal digits
    become the ASCII digit of their value; anything else becomes ['?']
    and ends the buffer. *)
Fixpoint TransformDecimalAndSpaceToASCII (s : str) : list N :=
  match s with
  | [] => []
  | c :: s' =>
      if (c <? 127)%N then c :: TransformDecimalAndSpaceToASCII s'
      else if Py_UNICODE_ISSPACE c
           then 0x20%N :: TransformDecimalAndSpaceToASCII s'
      else match Py_UNICODE_TODECIMAL c with
           | Some d => (0x30 + d)%N :: TransformDecimalAndSpaceToASCII s'
           | None => [0x3f%N]
           end
  end.

Fixpoint skip_space (b : list N) : list N :=
  match b with
  | c :: b' => if Py_ISSPACE c then skip_space b' else b
  | [] => []
  end.

Definition is_ascii_digit (c : N) : bool := ((0x30 <=? c) && (c <=? 0x39))%N.

(** The digit scan of [PyLong_FromString]: digits with single underscores
    between them; [prev] is the character before, [digits] the count of
    digits read.  Returns the value, the count and the unread rest. *)
Fixpoint scan_digits (b : list N) (prev : N) (acc : Z) (digits : N)
  : option (Z * N * list N) :=
  match b with
  | c :: b' =>
      if (c =? 0x5f)%N
      then if (prev =? 0x5f)%N then None
           else scan_digits b' c acc digits
      else if is_ascii_digit c
      then scan_digits b' c (10 * acc + Z.of_N (c - 0x30))%Z (N.succ digits)
      else if (prev =? 0x5f)%N then None else Some (acc, digits, b)
  | [] => if (prev =? 0x5f)%N then None else Some (acc, digits, [])
  end.

(** [sys.int_info.default_max_str_digits] *)
Definition max_str_digits : N := 4300.

(** [PyLong_FromString(buffer, &end, 10)] followed by the test that the
    whole buffer was read. *)
Definition PyLong_FromString (b : list N) : result Z :=
  let b1 := skip_space b in
  let '(sign, b2) :=
    match b1 with
    | c :: r =>
        if (c =? 0x2b)%N then (1%Z, r)            (* '+' *)
        else if (c =? 0x2d)%N then ((-1)%Z, r)    (* '-' *)
        else (1%Z, b1)
    | [] => (1%Z, b1)
    end in
  if (hd 0%N b2 =? 0x5f)%N then Raise ValueError  (* starts with '_' *)
  else
    match scan_digits b2 0%N 0%Z 0%N with
    | None => Raise ValueError
    | Some (v, digits, rest) =>
        if (digits =? 0)%N then Raise ValueError
        else if (max_str_digits <? digits)%N then Raise ValueError
        else match skip_space rest with
             | [] => Ok (sign * v)%Z
             | _ :: _ => Raise ValueError
             end
    end.

Definition int (s : str) : result Z :=
  PyLong_FromString (TransformDecimalAndSpaceToASCII s).

End Py.

(* ================================================================== *)
(** ** The fragment of [re] the two patterns use *)
(* ================================================================== *)

Module Re.
Import Py.

(** Members of a character set, as [sre_parse] produces them. *)
Inductive set_item :=
| CATEGORY_DIGIT                 (* \d *)
| RANGE (lo hi : N)              (* a-b *)
| LITERAL (c : N).

(** Pattern items.  [REPEAT n set] is [MAX_REPEAT (n, n, [IN set])], the
    only repetition the patterns contain. *)
Inductive op :=
| AT_BEGINNING                   (* ^ *)
| AT_END                         (* $ *)
| IN (set : list set_item)
| REPEAT (n : nat) (set : list set_item).

Definition pattern := list op.

Definition set_item_match (i : set_item) (c : N) : bool :=
  match i with
  | CATEGORY_DIGIT => Py_UNICODE_ISDECIMAL c
  | RANGE lo hi => ((lo <=? c) && (c <=? hi))%N
  | LITERAL x => (c =? x)%N
  end.

Definition in_set (set : list set_item) (c : N) : bool :=
  existsb (fun i => set_item_match i c) set.

Fixpoint repeat_in (set : list set_item) (n : nat) (s : str) : option str :=
  match n with
  | O => Some s
  | S n' =>
      match s with
      | c :: s' => if in_set set c then repeat_in set n' s' else None
      | [] => None
      end
  end.

(** [$] without [MULTILINE]: at the end of the string, or just before a
    line feed that is the last character. *)
Definition at_end (s : str) : bool :=
  match s with
  | [] => true
  | [c] => (c =? 0xa)%N
  | _ => false
  end.

(** Matching from position [pos] with [s] still unread; the result is the
    position where the match ends. *)
Fixpoint sre_match (p : pattern) (pos : nat) (s : str) : option nat :=
  match p with
  | [] => Some pos
  | AT_BEGINNING :: p' =>
      if Nat.eqb pos 0 then sre_match p' pos s else None
  | AT_END :: p' =>
      if at_end s then sre_match p' pos s else None
  | IN set :: p' =>
      match s with
      | c :: s' => if in_set set c then sre_match p' (S pos) s' else None
      | [] => None
      end
  | REPEAT n set :: p' =>
      match repeat_in set n s with
      | Some s' => sre_match p' (pos + n) s'
      | None => None
      end
  end.

(** [Pattern.match(s)]: a match object (here its end) or [None]. *)
Definition match_ (p : pattern) (s : str) : option nat := sre_match p 0 s.

(** Truth value of a match object or [None]. *)
Definition truthy {A} (m : option A) : bool :=
  match m with Some _ => true | None => false end.

(** [a or b] on such values. *)
Definition or_ {A} (a b : option A) : option A :=
  match a with Some _ => a | None => b end.

End Re.

(* ================================================================== *)
(** ** class DocumentoIdentidadValidator *)
(* ================================================================== *)

Module DocumentoIdentidadValidator.
Import Py Re.

(** What [self] gives access to: the class attribute [LETRAS_NIF] and the
    two compiled patterns set by [__init__]. *)
Record object := {
  LETRAS_NIF : str;
  pattern_nif : pattern;
  pattern_nie : pattern
}.

(** Method bodies run on [self] and end in a value or an exception; the
    object is handed on so that a write, if there were one, would show. *)
Definition M (A : Type) : Type := object -> result A * object.

Definition ret {A} (a : A) : M A := fun self => (Ok a, self).

Definition bind {A B} (m : M A) (k : A -> M B) : M B :=
  fun self =>
    match m self with
    | (Ok a, self') => k a self'
    | (Raise e, self') => (Raise e, self')
    end.

(** [self.f] *)
Definition attr {A} (f : object -> A) : M A := fun self => (Ok (f self), self).

(** A runtime operation that may raise. *)
Definition lift {A} (r : result A) : M A := fun self => (r, self).

Notation "x <- m ;; k" := (bind m (fun x => k))
  (at level 61, m at next level, right associativity).

(** [DocumentoIdentidadValidator()]: the class body and [__init__]. *)
Definition init : object := {|
  LETRAS_NIF := u "TRWAGMYFPDXBNJZSQVHLCKE";
  (* r'^\d{8}[A-Z]$' *)
  pattern_nif :=
    [AT_BEGINNING; REPEAT 8 [CATEGORY_DIGIT]; IN [RANGE 65 90]; AT_END];
  (* r'^[XYZ]\d{7}[A-Z]$' *)
  pattern_nie :=
    [AT_BEGINNING; IN [LITERAL 88; LITERAL 89; LITERAL 90];
     REPEAT 7 [CATEGORY_DIGIT]; IN [RANGE 65 90]; AT_END]
|}.

Definition identificar_documento (doc : str) : M str :=
  p_nif <- attr pattern_nif ;;
  if truthy (match_ p_nif doc) then ret (u "NIF")
  else
    p_nie <- attr pattern_nie ;;
    if truthy (match_ p_nie doc) then ret (u "NIE")
    else ret (u "Desconocido").

(** The right operand of [or] is only evaluated when the left one is
    [None]; matching has no effect, so [or_] on both values is the same. *)
Definition validar_formato (doc : str) : M bool :=
  p_nif <- attr pattern_nif ;;
  p_nie <- attr pattern_nie ;;
  ret (truthy (or_ (match_ p_nif doc) (match_ p_nie doc))).

Definition calcular_letra_nif (numero : Z) : M str :=
  letras <- attr LETRAS_NIF ;;
  lift (getitem letras (numero mod 23)).

(** [{'X': '0', 'Y': '1', 'Z': '2'}] *)
Definition conversion : list (str * str) :=
  [(u "X", u "0"); (u "Y", u "1"); (u "Z", u "2")].

Definition validar_letra (doc : str) : M bool :=
  (* the statement after the if / elif / else *)
  let compara (letra_correcta : str) : M bool :=
    ultima <- lift (getitem doc (-1)) ;;
    ret (str_eqb ultima letra_correcta) in
  tipo <- identificar_documento doc ;;
  if str_eqb tipo (u "NIF") then
    numero <- lift (int (slice doc None (Some (-1)%Z))) ;;
    letra_correcta <- calcular_letra_nif numero ;;
    compara letra_correcta
  else if str_eqb tipo (u "NIE") then
    inicial <- lift (getitem doc 0) ;;
    cifra <- lift (dict_getitem conversion inicial) ;;
    numero <- lift (int (cifra ++ slice doc (Some 1%Z) (Some (-1)%Z))) ;;
    letra_correcta <- calcular_letra_nif numero ;;
    compara letra_correcta
  else ret false.

Definition validar_documento (doc : str) : M str :=
  tipo <- identificar_documento doc ;;
  if str_eqb tipo (u "Desconocido") then
    ret (u "El documento '" ++ doc ++ u "' tiene un formato inválido.")
  else
    formato <- validar_formato doc ;;
    (* [and] evaluates its right operand only when the left one holds *)
    valido <- (if formato then validar_letra doc else ret false) ;;
    if valido
    then ret (u "El documento '" ++ doc ++ u "' es un " ++ tipo ++ u " válido.")
    else ret (u "El documento '" ++ doc ++ u "' es un " ++ tipo ++ u " inválido.").

End DocumentoIdentidadValidator.

(* ================================================================== *)
(** ** Vocabulary of the specification *)
(* ================================================================== *)

Module Spec.
Import Py Re DocumentoIdentidadValidator.

(** The three values of [DocumentType], as the strings the code returns. *)
Definition NIF : str := u "NIF".
Definition NIE : str := u "NIE".
Definition Unknown : str := u "Desconocido".

Definition ascii_digit (c : N) : bool := ((48 <=? c) && (c <=? 57))%N.
Definition upper (c : N) : bool := ((65 <=? c) && (c <=? 90))%N.
Definition xyz (c : N) : bool := ((c =? 88) || (c =? 89) || (c =? 90))%N.

(** "Exactly 8 digits followed by exactly 1 uppercase ASCII letter (total
    length 9)", for a given notion of digit. *)
Definition nif_format (digit : N -> bool) (doc : str) : bool :=
  Nat.eqb (List.length doc) 9
  && forallb digit (firstn 8 doc)
  && forallb upper (skipn 8 doc).

(** "One of X, Y, Z followed by exactly 7 digits followed by exactly 1
    uppercase ASCII letter (total length 9)". *)
Definition nie_format (digit : N -> bool) (doc : str) : bool :=
  Nat.eqb (List.length doc) 9
  && forallb xyz (firstn 1 doc)
  && forallb digit (firstn 7 (skipn 1 doc))
  && forallb upper (skipn 8 doc).

(** The string ends in a line feed. *)
Definition ends_in_line_feed (doc : str) : bool := (last doc 0 =? 0xa)%N.

(** The number a run of decimal digits denotes. *)
Definition digits_value (ds : str) : Z :=
  fold_left
    (fun acc c =>
       match Py_UNICODE_TODECIMAL c with
       | Some d => 10 * acc + Z.of_N d
       | None => acc
       end%Z)
    ds 0%Z.

(** The ASCII digit a decimal code point is rewritten to before parsing. *)
Definition ascii_of_decimal (c : N) : N :=
  match Py_UNICODE_TODECIMAL c with
  | Some d => (0x30 + d)%N
  | None => 0x3f%N
  end.

(** "X to 0, Y to 1, Z to 2", as ASCII digits. *)
Definition letter_digit (x : N) : N :=
  if (x =? 88)%N then 48%N else if (x =? 89)%N then 49%N else 50%N.

(** The 8-digit numeric string of a NIE: the digit of the leading letter,
    then the 7 digits that follow it. *)
Definition nie_digits (doc : str) : str :=
  map letter_digit (firstn 1 doc) ++ firstn 7 (skipn 1 doc).

(** The character of the control-letter table at index [n mod 23]. *)
Definition expected_letter (n : Z) : str :=
  [nth (Z.to_nat (n mod 23)) (LETRAS_NIF init) 0%N].

(** The outcome of a validation, and the message the code words it with. *)
Inductive outcome :=
| OutcomeUnknown
| Outcome (tipo : str) (valid : bool).

Definition message (doc : str) (o : outcome) : str :=
  match o with
  | OutcomeUnknown =>
      u "El documento '" ++ doc ++ u "' tiene un formato inválido."
  | Outcome tipo true =>
      u "El documento '" ++ doc ++ u "' es un " ++ tipo ++ u " válido."
  | Outcome tipo false =>
      u "El documento '" ++ doc ++ u "' es un " ++ tipo ++ u " inválido."
  end.

(** Sample documents. *)
Definition doc_12345678Z : str := u "12345678Z".
Definition doc_12345678Z_lf : str := u "12345678Z" ++ [0xa%N].
Definition doc_X1234567L_lf : str := u "X1234567L" ++ [0xa%N].
(** Arabic-Indic digits one to eight (U+0661 to U+0668), then [Z]. *)
Definition doc_arabic_indic : str :=
  [0x661; 0x662; 0x663; 0x664; 0x665; 0x666; 0x667; 0x668; 0x5a]%N.

(** [identificar_documento] with the two patterns tried in the other
    order, to compare with the one of the source. *)
Definition identificar_documento_nie_first (doc : str) : M str :=
  p_nie <- attr pattern_nie ;;
  if truthy (match_ p_nie doc) then ret (u "NIE")
  else
    p_nif <- attr pattern_nif ;;
    if truthy (match_ p_nif doc) then ret (u "NIF")
    else ret (u "Desconocido").

End Spec.

(* ================================================================== *)
(** ** Behaviour on every string *)
(* ================================================================== *)

Module Behaviour.
Import Py Re DocumentoIdentidadValidator Spec.

(** The document is a match of one of the patterns followed by one line
    feed, which [$] lets through. *)
Definition matched_before_line_feed (doc : str) : bool :=
  ends_in_line_feed doc
  && (nif_format Py_UNICODE_ISDECIMAL (removelast doc)
      || nie_format Py_UNICODE_ISDECIMAL (removelast doc)).

(** The comparison [doc[-1] == letra_correcta] on a 9-character document
    of either format. *)
Definition letter_matches (doc : str) : bool :=
  if nif_format Py_UNICODE_ISDECIMAL doc
  then str_eqb (skipn 8 doc)
         (expected_letter (digits_value (firstn 8 doc)))
  else if nie_format Py_UNICODE_ISDECIMAL doc
  then str_eqb (skipn 8 doc)
         (expected_letter (digits_value (nie_digits doc)))
  else false.

(** A character no pattern accepts at any position: not a decimal digit,
    not an uppercase ASCII letter, not a line feed. *)
Definition foreign (c : N) : bool :=
  negb (Py_UNICODE_ISDECIMAL c) && negb (upper c) && negb (c =? 0xa)%N.

(** The five outcomes a validation can report. *)
Definition reportable (o : outcome) : Prop :=
  match o with
  | OutcomeUnknown => True
  | Outcome tipo _ => tipo = NIF \/ tipo = NIE
  end.

(** What a validation reports on a string that is not a match followed by
    a line feed. *)
Definition outcome_of (doc : str) : outcome :=
  if nif_format Py_UNICODE_ISDECIMAL doc then Outcome NIF (letter_matches doc)
  else if nie_format Py_UNICODE_ISDECIMAL doc
  then Outcome NIE (letter_matches doc)
  else OutcomeUnknown.

(** The same document with every decimal digit written in ASCII. *)
Definition to_ascii_digits (doc : str) : str :=
  map (fun c => if Py_UNICODE_ISDECIMAL c then ascii_of_decimal c else c) doc.
End Behaviour.

(* ================================================================== *)
(** ** The script under [if __name__ == "__main__"] *)
(* ================================================================== *)

Module Script.
Import Py Re DocumentoIdentidadValidator Spec.

(** How the loop can end early: an exception of the validator, or the
    encoding error of [print]. *)
Inductive raised :=
| Validator (e : exn)
| UnicodeEncodeError.

(** Standard output is taken to be a UTF-8 text stream, the default: it
    encodes every code point but the surrogates U+D800 to U+DFFF. *)
Definition encodable (s : str) : bool :=
  forallb (fun c => negb ((0xd800 <=? c) && (c <=? 0xdfff))%N) s.

(** [print(s)]: the text, then a line feed; [None] when the text cannot be
    encoded, and then nothing is written. *)
Definition print (s : str) (stdout : str) : option str :=
  if encodable s then Some (stdout ++ s ++ [0xa%N]) else None.

(** [for doc in documentos: print(validator.validar_documento(doc))]; an
    exception ends the loop and leaves what was printed before.  The first
    component is [None] when the loop runs to its end. *)
Fixpoint for_print (documentos : list str) (validator : object)
  (stdout : str) : option raised * object * str :=
  match documentos with
  | [] => (None, validator, stdout)
  | doc :: rest =>
      match validar_documento doc validator with
      | (Ok mensaje, validator') =>
          match print mensaje stdout with
          | Some stdout' => for_print rest validator' stdout'
          | None => (Some UnicodeEncodeError, validator', stdout)
          end
      | (Raise e, validator') => (Some (Validator e), validator', stdout)
      end
  end.

Definition documentos : list str :=
  [u "12345678Z"; u "X1234567L"; u "Y1234567X"; u "Z7654321M";
   u "12345678A"; u "X1234567A"].


End Script.

Import Py Re DocumentoIdentidadValidator Spec.
Import Behaviour Script.

(* ================================================================== *)
(** ** The Unicode table *)
(* ================================================================== *)

(** Boolean comparisons on code points, turned into propositions. *)
Ltac reflect_cmp :=
  repeat match goal with
    | H : (_ && _) = true |- _ => apply andb_prop in H; destruct H
    | H : (_ || _) = false |- _ => apply orb_false_elim in H; destruct H
    | H : (_ <=? _)%N = true |- _ => apply N.leb_le in H
    | H : (_ <=? _)%N = false |- _ => apply N.leb_gt in H
    | H : (_ <? _)%N = true |- _ => apply N.ltb_lt in H
    | H : (_ <? _)%N = false |- _ => apply N.ltb_ge in H
    | H : (_ =? _)%N = true |- _ => apply N.eqb_eq in H
    | H : (_ =? _)%N = false |- _ => apply N.eqb_neq in H
    end.

(** Case analysis on every comparison the goal tests. *)
Ltac split_cmp :=
  repeat match goal with
    | |- context [(?a <=? ?b)%N] => destruct (N.leb_spec a b)
    | |- context [(?a <? ?b)%N] => destruct (N.ltb_spec a b)
    | |- context [(?a =? ?b)%N] => destruct (N.eqb_spec a b)
    end.

Lemma todecimal_inv (c d : N) :
  Py_UNICODE_TODECIMAL c = Some d ->
  exists z, In z decimal_zeros /\ (z <= c < z + 10)%N /\ d = (c - z)%N.
Proof.
  unfold Py_UNICODE_TODECIMAL.
  destruct (find _ decimal_zeros) as [z|] eqn:E; [|discriminate].
  intros [= <-]. apply find_some in E. destruct E as [Hin Hz].
  reflect_cmp. exists z. split; [exact Hin|]. split; [lia|reflexivity].
Qed.

Lemma todecimal_lt_10 (c d : N) :
  Py_UNICODE_TODECIMAL c = Some d -> (d < 10)%N.
Proof.
  intros H. apply todecimal_inv in H. destruct H as (z & _ & Hz & ->). lia.
Qed.

(** Below U+0660 the only decimal digits are the ASCII ones. *)
Lemma todecimal_low (c : N) :
  (c < 0x660)%N ->
  Py_UNICODE_TODECIMAL c = if ascii_digit c then Some (c - 48)%N else None.
Proof.
  intros Hc.
  destruct (Py_UNICODE_TODECIMAL c) as [d|] eqn:E.
  - apply todecimal_inv in E. destruct E as (z & Hin & Hz & ->).
    destruct Hin as [<- | Hin].
    + unfold ascii_digit. split_cmp; try lia. reflexivity.
    + exfalso.
      assert (Hall : forallb (fun z => 0x660 <=? z)%N
                       (tl decimal_zeros) = true) by (vm_compute; reflexivity).
      rewrite forallb_forall in Hall. specialize (Hall z Hin).
      reflect_cmp. lia.
  - unfold ascii_digit. split_cmp; try reflexivity. exfalso.
    unfold Py_UNICODE_TODECIMAL, decimal_zeros in E. cbn [find] in E.
    replace ((48 <=? c) && (c <? 48 + 10))%N with true in E; [discriminate|].
    symmetry. apply andb_true_intro. split; [apply N.leb_le|apply N.ltb_lt]; lia.
Qed.

Lemma isdecimal_low (c : N) :
  (c < 0x660)%N -> Py_UNICODE_ISDECIMAL c = ascii_digit c.
Proof.
  intros Hc. unfold Py_UNICODE_ISDECIMAL. rewrite todecimal_low by exact Hc.
  destruct (ascii_digit c); reflexivity.
Qed.

Lemma decimal_not_space (c : N) :
  Py_UNICODE_ISDECIMAL c = true -> Py_UNICODE_ISSPACE c = false.
Proof.
  unfold Py_UNICODE_ISDECIMAL.
  destruct (Py_UNICODE_TODECIMAL c) as [d|] eqn:E; [intros _|discriminate].
  apply todecimal_inv in E. destruct E as (z & Hin & Hz & _).
  destruct (Py_UNICODE_ISSPACE c) eqn:S; [exfalso|reflexivity].
  unfold Py_UNICODE_ISSPACE in S.
  repeat rewrite ?orb_true_iff, ?andb_true_iff, ?N.leb_le, ?N.eqb_eq in S.
  unfold decimal_zeros in Hin.
  repeat (destruct Hin as [<- | Hin]; [lia|]).
  destruct Hin.
Qed.

Lemma ascii_of_decimal_digit (c : N) :
  Py_UNICODE_ISDECIMAL c = true -> is_ascii_digit (ascii_of_decimal c) = true.
Proof.
  unfold Py_UNICODE_ISDECIMAL, ascii_of_decimal.
  destruct (Py_UNICODE_TODECIMAL c) as [d|] eqn:E; [intros _|discriminate].
  apply todecimal_lt_10 in E. unfold is_ascii_digit.
  apply andb_true_intro. split; [apply N.leb_le|apply N.leb_le]; lia.
Qed.

Lemma transform_decimals (ds : str) :
  forallb Py_UNICODE_ISDECIMAL ds = true ->
  TransformDecimalAndSpaceToASCII ds = map ascii_of_decimal ds.
Proof.
  induction ds as [|c ds IH]; [reflexivity|].
  cbn [forallb]. intros H. apply andb_prop in H. destruct H as [Hc Hds].
  cbn [TransformDecimalAndSpaceToASCII map]. rewrite (IH Hds).
  destruct (N.ltb_spec c 127) as [Hlt|Hge].
  - f_equal. unfold ascii_of_decimal.
    rewrite isdecimal_low in Hc by lia.
    rewrite todecimal_low by lia. rewrite Hc.
    unfold ascii_digit in Hc. reflect_cmp. lia.
  - rewrite (decimal_not_space c Hc). unfold ascii_of_decimal.
    unfold Py_UNICODE_ISDECIMAL in Hc.
    destruct (Py_UNICODE_TODECIMAL c); [reflexivity|discriminate].
Qed.

Lemma scan_digits_all (b : list N) :
  forall prev acc n,
    prev <> 0x5f%N ->
    forallb is_ascii_digit b = true ->
    scan_digits b prev acc n
    = Some (fold_left (fun a c => 10 * a + Z.of_N (c - 0x30))%Z b acc,
            (n + N.of_nat (List.length b))%N, []).
Proof.
  induction b as [|c b IH]; intros prev acc n Hprev Hb.
  - cbn. destruct (N.eqb_spec prev 0x5f); [contradiction|].
    rewrite N.add_0_r. reflexivity.
  - cbn [forallb] in Hb. apply andb_prop in Hb. destruct Hb as [Hc Hb].
    cbn [scan_digits]. rewrite Hc.
    assert (Hne : c <> 0x5f%N) by (unfold is_ascii_digit in Hc; reflect_cmp; lia).
    destruct (N.eqb_spec c 0x5f); [contradiction|].
    rewrite IH by assumption. cbn [fold_left List.length].
    f_equal. f_equal. f_equal. lia.
Qed.

Lemma digits_value_fold (ds : str) :
  forallb Py_UNICODE_ISDECIMAL ds = true ->
  forall acc,
    fold_left (fun a c => 10 * a + Z.of_N (c - 0x30))%Z
      (map ascii_of_decimal ds) acc
    = fold_left
        (fun acc c =>
           match Py_UNICODE_TODECIMAL c with
           | Some d => 10 * acc + Z.of_N d
           | None => acc
           end%Z) ds acc.
Proof.
  induction ds as [|c ds IH]; intros H acc; [reflexivity|].
  cbn [forallb] in H. apply andb_prop in H. destruct H as [Hc Hds].
  cbn [map fold_left]. rewrite (IH Hds). f_equal.
  unfold ascii_of_decimal. unfold Py_UNICODE_ISDECIMAL in Hc.
  destruct (Py_UNICODE_TODECIMAL c) as [d|]; [|discriminate].
  f_equal. f_equal. lia.
Qed.

(** [int] of a non-empty run of decimal digits is the number it denotes. *)
Lemma int_digits (ds : str) :
  ds <> [] ->
  (List.length ds <= 4300)%nat ->
  forallb Py_UNICODE_ISDECIMAL ds = true ->
  int ds = Ok (digits_value ds).
Proof.
  intros Hne Hlen Hds. unfold int. rewrite (transform_decimals ds Hds).
  assert (Hb : forallb is_ascii_digit (map ascii_of_decimal ds) = true).
  { rewrite forallb_forall. intros x Hx. apply in_map_iff in Hx.
    destruct Hx as (c & <- & Hc). apply ascii_of_decimal_digit.
    rewrite forallb_forall in Hds. exact (Hds c Hc). }
  destruct ds as [|c ds]; [contradiction|].
  cbn [map] in *. set (b := ascii_of_decimal c :: map ascii_of_decimal ds) in *.
  assert (Hc : is_ascii_digit (ascii_of_decimal c) = true).
  { cbn [forallb] in Hb. apply andb_prop in Hb. tauto. }
  unfold PyLong_FromString.
  assert (Hskip : skip_space b = b).
  { subst b. cbn [skip_space]. unfold Py_ISSPACE, is_ascii_digit in *.
    reflect_cmp. split_cmp; try lia; reflexivity. }
  rewrite Hskip. subst b. cbv beta iota.
  unfold is_ascii_digit in Hc. reflect_cmp.
  destruct (N.eqb_spec (ascii_of_decimal c) 0x2b); [lia|].
  destruct (N.eqb_spec (ascii_of_decimal c) 0x2d); [lia|].
  cbn [hd].
  destruct (N.eqb_spec (ascii_of_decimal c) 0x5f); [lia|].
  rewrite scan_digits_all by (try assumption; lia).
  cbn [List.length] in *. rewrite length_map.
  destruct (N.eqb_spec (0 + N.of_nat (S (List.length ds))) 0); [lia|].
  unfold max_str_digits.
  destruct (N.ltb_spec 4300 (0 + N.of_nat (S (List.length ds)))); [lia|].
  cbn [skip_space]. f_equal.
  change (ascii_of_decimal c :: map ascii_of_decimal ds)
    with (map ascii_of_decimal (c :: ds)).
  rewrite digits_value_fold by exact Hds.
  unfold digits_value. lia.
Qed.

(* ================================================================== *)
(** ** The two patterns *)
(* ================================================================== *)

(** Case analysis on each test of a fixed-width match, one at a time. *)
Ltac split_tests :=
  repeat match goal with
    | |- context [Py_UNICODE_ISDECIMAL ?c] =>
        destruct (Py_UNICODE_ISDECIMAL c); cbn -[N.leb N.eqb]; try reflexivity
    | |- context [(?a <=? ?b)%N] =>
        destruct (N.leb a b); cbn -[N.leb N.eqb]; try reflexivity
    | |- context [(?a =? ?b)%N] =>
        destruct (N.eqb a b); cbn -[N.leb N.eqb]; try reflexivity
    end.

Ltac fixed_width doc :=
  destruct doc as [|? [|? [|? [|? [|? [|? [|? [|? [|? [|? [|? ?]]]]]]]]]]];
  unfold match_, nif_format, nie_format, ends_in_line_feed, upper, xyz, init;
  cbn -[Py_UNICODE_ISDECIMAL N.leb N.eqb];
  try reflexivity; split_tests.

Lemma match_nif_spec (doc : str) :
  truthy (match_ (pattern_nif init) doc)
  = nif_format Py_UNICODE_ISDECIMAL doc
    || ends_in_line_feed doc
       && nif_format Py_UNICODE_ISDECIMAL (removelast doc).
Proof. fixed_width doc. Qed.

Lemma match_nie_spec (doc : str) :
  truthy (match_ (pattern_nie init) doc)
  = nie_format Py_UNICODE_ISDECIMAL doc
    || ends_in_line_feed doc
       && nie_format Py_UNICODE_ISDECIMAL (removelast doc).
Proof. fixed_width doc. Qed.


(** What a match says about the first character. *)
Lemma match_nif_head (doc : str) :
  truthy (match_ (pattern_nif init) doc) = true ->
  exists c r, doc = c :: r /\ Py_UNICODE_ISDECIMAL c = true.
Proof.
  destruct doc as [|c r]; [discriminate|].
  unfold match_, init. cbn -[Py_UNICODE_ISDECIMAL repeat_in].
  cbn [repeat_in in_set existsb set_item_match].
  destruct (Py_UNICODE_ISDECIMAL c) eqn:E; [|discriminate].
  intros _. exists c, r. split; [reflexivity|exact E].
Qed.

Lemma match_nie_head (doc : str) :
  truthy (match_ (pattern_nie init) doc) = true ->
  exists c r, doc = c :: r /\ xyz c = true.
Proof.
  destruct doc as [|c r]; [discriminate|].
  unfold match_, init. cbn -[Py_UNICODE_ISDECIMAL repeat_in N.eqb].
  fold (xyz c). rewrite orb_false_r.
  replace ((c =? 88) || ((c =? 89) || (c =? 90)))%N with (xyz c)
    by (unfold xyz; rewrite orb_assoc; reflexivity).
  destruct (xyz c) eqn:E; [|discriminate].
  intros _. exists c, r. split; [reflexivity|exact E].
Qed.

Lemma xyz_not_decimal (c : N) :
  xyz c = true -> Py_UNICODE_ISDECIMAL c = false.
Proof.
  unfold xyz. intros H.
  repeat (apply orb_prop in H; destruct H as [H|H]);
    reflect_cmp; subst; reflexivity.
Qed.

Lemma patterns_exclusive (doc : str) :
  truthy (match_ (pattern_nif init) doc) = true ->
  truthy (match_ (pattern_nie init) doc) = true ->
  False.
Proof.
  intros Hnif Hnie.
  apply match_nif_head in Hnif. destruct Hnif as (c & r & -> & Hc).
  apply match_nie_head in Hnie. destruct Hnie as (c' & r' & [= <- <-] & Hx).
  rewrite (xyz_not_decimal c Hx) in Hc. discriminate.
Qed.

(* ================================================================== *)
(** ** The methods *)
(* ================================================================== *)

Lemma identificar_documento_run (doc : str) (self : object) :
  identificar_documento doc self
  = (Ok (if truthy (match_ (pattern_nif self) doc) then NIF
         else if truthy (match_ (pattern_nie self) doc) then NIE
         else Unknown), self).
Proof.
  unfold identificar_documento, bind, attr, ret.
  destruct (truthy (match_ (pattern_nif self) doc)); [reflexivity|].
  destruct (truthy (match_ (pattern_nie self) doc)); reflexivity.
Qed.

Lemma validar_formato_run (doc : str) (self : object) :
  validar_formato doc self
  = (Ok (truthy (match_ (pattern_nif self) doc)
         || truthy (match_ (pattern_nie self) doc)), self).
Proof.
  unfold validar_formato, bind, attr, ret. do 2 f_equal.
  destruct (match_ (pattern_nif self) doc); reflexivity.
Qed.

(** The letter of the table a number selects. *)
Lemma getitem_mod_23 (n : Z) :
  getitem (LETRAS_NIF init) (n mod 23)
  = Ok [nth (Z.to_nat (n mod 23)) (LETRAS_NIF init) 0%N].
Proof.
  pose proof (Z.mod_pos_bound n 23 eq_refl) as Hm.
  unfold getitem.
  destruct (Z.ltb_spec (n mod 23) 0) as [?|_]; [lia|].
  assert (Hlen : len (LETRAS_NIF init) = 23%Z) by reflexivity.
  rewrite Hlen.
  destruct (Z.leb_spec 0 (n mod 23)) as [_|?]; [|lia].
  destruct (Z.ltb_spec (n mod 23) 23) as [_|?]; [|lia].
  cbn [andb].
  rewrite (nth_error_nth' (LETRAS_NIF init) 0%N).
  - reflexivity.
  - change (List.length (LETRAS_NIF init)) with 23%nat. lia.
Qed.

Lemma calcular_letra_nif_run (n : Z) :
  calcular_letra_nif n init
  = (Ok [nth (Z.to_nat (n mod 23)) (LETRAS_NIF init) 0%N], init).
Proof.
  unfold calcular_letra_nif, bind, attr, lift.
  rewrite getitem_mod_23. reflexivity.
Qed.

(** No method writes to the object it runs on. *)
Lemma identificar_documento_frame doc self :
  snd (identificar_documento doc self) = self.
Proof. rewrite identificar_documento_run. reflexivity. Qed.

Lemma validar_formato_frame doc self :
  snd (validar_formato doc self) = self.
Proof. rewrite validar_formato_run. reflexivity. Qed.

Lemma bind_frame {A B} (m : M A) (k : A -> M B) self :
  snd (m self) = self ->
  (forall a, snd (k a self) = self) ->
  snd (bind m k self) = self.
Proof.
  intros Hm Hk. unfold bind. destruct (m self) as [[a|e] self'] eqn:E;
    cbn [snd] in Hm; subst self'; [apply Hk|reflexivity].
Qed.

Lemma calcular_letra_nif_frame n self :
  snd (calcular_letra_nif n self) = self.
Proof. reflexivity. Qed.

Ltac frame :=
  repeat first
    [ reflexivity
    | apply identificar_documento_frame
    | apply validar_formato_frame
    | apply calcular_letra_nif_frame
    | apply bind_frame; [|intros ?]
    | match goal with |- context [if ?b then _ else _] => destruct b end ].

Lemma validar_letra_frame doc self :
  snd (validar_letra doc self) = self.
Proof. unfold validar_letra. frame. Qed.

Lemma validar_documento_frame doc self :
  snd (validar_documento doc self) = self.
Proof.
  unfold validar_documento. frame; apply validar_letra_frame.
Qed.

Ltac nine doc :=
  destruct doc as [|? [|? [|? [|? [|? [|? [|? [|? [|? [|? ?]]]]]]]]]];
  try discriminate.

Lemma nif_format_parts (digit : N -> bool) (doc : str) :
  nif_format digit doc = true ->
  slice doc None (Some (-1)%Z) = firstn 8 doc
  /\ getitem doc (-1) = Ok (skipn 8 doc)
  /\ List.length (firstn 8 doc) = 8%nat
  /\ forallb digit (firstn 8 doc) = true.
Proof.
  unfold nif_format. intros H. nine doc.
  repeat split; try reflexivity.
  apply andb_prop in H. destruct H as [H _]. apply andb_prop in H. tauto.
Qed.

Lemma nie_format_parts (digit : N -> bool) (doc : str) :
  nie_format digit doc = true ->
  getitem doc 0 = Ok (firstn 1 doc)
  /\ slice doc (Some 1%Z) (Some (-1)%Z) = firstn 7 (skipn 1 doc)
  /\ getitem doc (-1) = Ok (skipn 8 doc)
  /\ dict_getitem conversion (firstn 1 doc) = Ok (map letter_digit (firstn 1 doc))
  /\ List.length (nie_digits doc) = 8%nat
  /\ forallb digit (firstn 7 (skipn 1 doc)) = true.
Proof.
  unfold nie_format. intros H. nine doc.
  repeat (apply andb_prop in H; destruct H as [H ?]).
  repeat split; try reflexivity; try assumption.
  cbn [firstn forallb] in *. unfold xyz in *.
  rewrite andb_true_r in *.
  repeat match goal with
    | H : (_ || _) = true |- _ => apply orb_prop in H; destruct H
    end; reflect_cmp; subst; reflexivity.
Qed.

Lemma validar_letra_nif (doc : str) :
  nif_format Py_UNICODE_ISDECIMAL doc = true ->
  validar_letra doc init
  = (Ok (str_eqb (skipn 8 doc) (expected_letter (digits_value (firstn 8 doc)))),
     init).
Proof.
  intros H. destruct (nif_format_parts _ _ H) as (Hs & Hl & Hn & Hd).
  unfold validar_letra, bind. rewrite identificar_documento_run.
  rewrite match_nif_spec, H. cbn [orb].
  change (str_eqb NIF (u "NIF")) with true. cbv iota.
  unfold lift. rewrite Hs.
  rewrite int_digits; [| intros E; rewrite E in Hn; discriminate | lia | exact Hd].
  rewrite calcular_letra_nif_run, Hl. reflexivity.
Qed.

Lemma letter_digit_decimal (x : N) :
  Py_UNICODE_ISDECIMAL (letter_digit x) = true.
Proof. unfold letter_digit. destruct (x =? 88)%N; [|destruct (x =? 89)%N]; reflexivity. Qed.

Lemma validar_letra_nie (doc : str) :
  nie_format Py_UNICODE_ISDECIMAL doc = true ->
  validar_letra doc init
  = (Ok (str_eqb (skipn 8 doc) (expected_letter (digits_value (nie_digits doc)))),
     init).
Proof.
  intros H.
  destruct (nie_format_parts _ _ H) as (H0 & Hs & Hl & Hc & Hn & Hd).
  assert (Hnif : truthy (match_ (pattern_nif init) doc) = false).
  { destruct (truthy (match_ (pattern_nif init) doc)) eqn:E; [|reflexivity].
    exfalso. apply (patterns_exclusive doc E).
    rewrite match_nie_spec, H. reflexivity. }
  unfold validar_letra, bind. rewrite identificar_documento_run.
  rewrite Hnif, match_nie_spec, H. cbn [orb].
  change (str_eqb NIE (u "NIF")) with false.
  change (str_eqb NIE (u "NIE")) with true. cbv iota.
  unfold lift. rewrite H0, Hc, Hs. fold (nie_digits doc).
  rewrite int_digits; [| intros E; rewrite E in Hn; discriminate | lia | ].
  - rewrite calcular_letra_nif_run, Hl. reflexivity.
  - unfold nie_digits. rewrite forallb_app, Hd, andb_true_r.
    rewrite forallb_forall. intros x Hx. apply in_map_iff in Hx.
    destruct Hx as (y & <- & _). apply letter_digit_decimal.
Qed.

Lemma unknown_letra_false (doc : str) :
  identificar_documento doc init = (Ok Unknown, init) ->
  validar_letra doc init = (Ok false, init).
Proof.
  intros H. unfold validar_letra, bind. rewrite H. reflexivity.
Qed.

(** Without a final line feed a match is a match of the whole string. *)
Lemma match_nif_whole (doc : str) :
  ends_in_line_feed doc = false ->
  truthy (match_ (pattern_nif init) doc) = nif_format Py_UNICODE_ISDECIMAL doc.
Proof.
  intros H. rewrite match_nif_spec, H. cbn [andb]. apply orb_false_r.
Qed.

Lemma match_nie_whole (doc : str) :
  ends_in_line_feed doc = false ->
  truthy (match_ (pattern_nie init) doc) = nie_format Py_UNICODE_ISDECIMAL doc.
Proof.
  intros H. rewrite match_nie_spec, H. cbn [andb]. apply orb_false_r.
Qed.

Lemma formats_exclusive (doc : str) :
  nif_format Py_UNICODE_ISDECIMAL doc = true ->
  nie_format Py_UNICODE_ISDECIMAL doc = true ->
  False.
Proof.
  intros Hnif Hnie. apply (patterns_exclusive doc).
  - rewrite match_nif_spec, Hnif. reflexivity.
  - rewrite match_nie_spec, Hnie. reflexivity.
Qed.

(** Every ASCII digit is a digit for the patterns. *)
Lemma nif_format_ascii (doc : str) :
  nif_format ascii_digit doc = true ->
  nif_format Py_UNICODE_ISDECIMAL doc = true.
Proof.
  unfold nif_format. intros H.
  repeat (apply andb_prop in H; destruct H as [H ?]).
  rewrite H, H0. cbn [andb]. rewrite andb_true_r.
  rewrite forallb_forall in *. intros x Hx.
  specialize (H1 x Hx). rewrite isdecimal_low; [exact H1|].
  unfold ascii_digit in H1. reflect_cmp. lia.
Qed.

Lemma nie_format_ascii (doc : str) :
  nie_format ascii_digit doc = true ->
  nie_format Py_UNICODE_ISDECIMAL doc = true.
Proof.
  unfold nie_format. intros H.
  repeat (apply andb_prop in H; destruct H as [H ?]).
  rewrite H, H0, H2. cbn [andb]. rewrite andb_true_r.
  rewrite forallb_forall in *. intros x Hx.
  specialize (H1 x Hx). rewrite isdecimal_low; [exact H1|].
  unfold ascii_digit in H1. reflect_cmp. lia.
Qed.

(** Validation of a string that does not end in a line feed: always a
    message, worded from the type and from format and letter checks. *)
Lemma validar_documento_without_line_feed (doc : str) :
  ends_in_line_feed doc = false ->
  exists tipo formato letra,
    identificar_documento doc init = (Ok tipo, init)
    /\ validar_formato doc init = (Ok formato, init)
    /\ validar_letra doc init = (Ok letra, init)
    /\ validar_documento doc init
       = (Ok (message doc (if str_eqb tipo Unknown then OutcomeUnknown
                           else Outcome tipo (formato && letra))), init).
Proof.
  intros Hlf.
  pose proof (identificar_documento_run doc init) as Hid.
  pose proof (validar_formato_run doc init) as Hfo.
  rewrite (match_nif_whole doc Hlf), (match_nie_whole doc Hlf) in Hid, Hfo.
  destruct (nif_format Py_UNICODE_ISDECIMAL doc) eqn:Fnif;
    [|destruct (nie_format Py_UNICODE_ISDECIMAL doc) eqn:Fnie];
    cbn [orb] in Hfo; cbv iota in Hid.
  - pose proof (validar_letra_nif doc Fnif) as Hle.
    eexists _, _, _.
    split; [exact Hid|]. split; [exact Hfo|]. split; [exact Hle|].
    unfold validar_documento, bind. rewrite Hid.
    change (str_eqb NIF (u "Desconocido")) with false.
    change (str_eqb NIF Unknown) with false. cbv beta iota.
    rewrite Hfo, Hle. cbn [andb].
    destruct (str_eqb _ _); reflexivity.
  - pose proof (validar_letra_nie doc Fnie) as Hle.
    eexists _, _, _.
    split; [exact Hid|]. split; [exact Hfo|]. split; [exact Hle|].
    unfold validar_documento, bind. rewrite Hid.
    change (str_eqb NIE (u "Desconocido")) with false.
    change (str_eqb NIE Unknown) with false. cbv beta iota.
    rewrite Hfo, Hle. cbn [andb].
    destruct (str_eqb _ _); reflexivity.
  - pose proof (unknown_letra_false doc Hid) as Hle.
    eexists _, _, _.
    split; [exact Hid|]. split; [exact Hfo|]. split; [exact Hle|].
    unfold validar_documento, bind. rewrite Hid. reflexivity.
Qed.

(* ================================================================== *)
(** ** Classification *)
(* ================================================================== *)

(** Claim C1, as the code has it.  For every string that does not end in a
    line feed, [identificar_documento] returns without raising, and it
    returns NIF exactly when the string is 8 decimal digits followed by one
    uppercase ASCII letter, NIE exactly when it is one of X, Y, Z followed by
    7 decimal digits and one uppercase ASCII letter, and Desconocido exactly
    when it is neither; a decimal digit is any character of the class [\d]
    of the patterns, that is any Unicode decimal digit, the ASCII digits
    among them. *)
Theorem identificar_documento_formats (doc : str) :
  ends_in_line_feed doc = false ->
  exists tipo,
    identificar_documento doc init = (Ok tipo, init)
    /\ (tipo = NIF <-> nif_format Py_UNICODE_ISDECIMAL doc = true)
    /\ (tipo = NIE <-> nie_format Py_UNICODE_ISDECIMAL doc = true)
    /\ (tipo = Unknown <->
        nif_format Py_UNICODE_ISDECIMAL doc = false
        /\ nie_format Py_UNICODE_ISDECIMAL doc = false).
Proof.
  intros Hlf.
  pose proof (identificar_documento_run doc init) as Hid.
  rewrite (match_nif_whole doc Hlf), (match_nie_whole doc Hlf) in Hid.
  pose proof (formats_exclusive doc) as Hex.
  destruct (nif_format Py_UNICODE_ISDECIMAL doc) eqn:Fnif;
    [|destruct (nie_format Py_UNICODE_ISDECIMAL doc) eqn:Fnie];
    cbv iota in Hid; eexists; (split; [exact Hid|]).
  - destruct (nie_format Py_UNICODE_ISDECIMAL doc) eqn:Fnie.
    + destruct (Hex eq_refl eq_refl).
    + repeat split; intros; try reflexivity; try discriminate.
      destruct H; discriminate.
  - repeat split; intros; try reflexivity; try discriminate.
    destruct H; discriminate.
  - repeat split; intros; try reflexivity; discriminate.
Qed.

Lemma identificar_documento_formats_witness :
  ends_in_line_feed doc_12345678Z = false
  /\ identificar_documento doc_12345678Z init = (Ok NIF, init).
Proof.
  split; [reflexivity|].
  destruct (identificar_documento_formats doc_12345678Z eq_refl)
    as (tipo & Hrun & Hnif & _).
  rewrite Hrun. do 2 f_equal. apply Hnif. reflexivity.
Defined.

(** Claim C1 as stated fails: a string of eight Arabic-Indic digits and [Z]
    is classified NIF although it does not consist of 8 ASCII digits and a
    letter. *)
Lemma identificar_documento_non_ascii_digits :
  identificar_documento doc_arabic_indic init = (Ok NIF, init)
  /\ nif_format ascii_digit doc_arabic_indic = false.
Proof. split; reflexivity. Qed.

Lemma identificar_documento_nie_first_run (doc : str) (self : object) :
  identificar_documento_nie_first doc self
  = (Ok (if truthy (match_ (pattern_nie self) doc) then NIE
         else if truthy (match_ (pattern_nif self) doc) then NIF
         else Unknown), self).
Proof.
  unfold identificar_documento_nie_first, bind, attr, ret.
  destruct (truthy (match_ (pattern_nie self) doc)); [reflexivity|].
  destruct (truthy (match_ (pattern_nif self) doc)); reflexivity.
Qed.

(** Claim C9.  No string matches both patterns, since the first character
    cannot be both a digit and one of X, Y, Z; and trying the NIE pattern
    first gives the same answer on every string. *)
Theorem patterns_disjoint_order_irrelevant (doc : str) :
  ~ (truthy (match_ (pattern_nif init) doc) = true
     /\ truthy (match_ (pattern_nie init) doc) = true)
  /\ identificar_documento_nie_first doc init = identificar_documento doc init.
Proof.
  split.
  - intros [Hnif Hnie]. exact (patterns_exclusive doc Hnif Hnie).
  - rewrite identificar_documento_run, identificar_documento_nie_first_run.
    pose proof (patterns_exclusive doc) as Hex.
    destruct (truthy (match_ (pattern_nif init) doc));
      destruct (truthy (match_ (pattern_nie init) doc));
      try reflexivity.
    destruct (Hex eq_refl eq_refl).
Qed.

(* ================================================================== *)
(** ** The control letter *)
(* ================================================================== *)

(** Claim C3.  For a non-negative number, [calcular_letra_nif] returns the
    character at index [numero mod 23] of the table
    TRWAGMYFPDXBNJZSQVHLCKE, whose index 0 is T and index 22 is E; the table
    has 23 characters, and no method of the validator leaves it changed. *)
Theorem calcular_letra_nif_table (n : Z) :
  (0 <= n)%Z ->
  calcular_letra_nif n init
  = (Ok [nth (Z.to_nat (n mod 23)) (LETRAS_NIF init) 0%N], init)
  /\ LETRAS_NIF init = u "TRWAGMYFPDXBNJZSQVHLCKE"
  /\ len (LETRAS_NIF init) = 23%Z
  /\ getitem (LETRAS_NIF init) 0 = Ok (u "T")
  /\ getitem (LETRAS_NIF init) 22 = Ok (u "E")
  /\ (forall doc self,
        LETRAS_NIF (snd (identificar_documento doc self)) = LETRAS_NIF self
        /\ LETRAS_NIF (snd (validar_formato doc self)) = LETRAS_NIF self
        /\ LETRAS_NIF (snd (validar_letra doc self)) = LETRAS_NIF self
        /\ LETRAS_NIF (snd (validar_documento doc self)) = LETRAS_NIF self)
  /\ (forall m self,
        LETRAS_NIF (snd (calcular_letra_nif m self)) = LETRAS_NIF self).
Proof.
  intros _. split; [apply calcular_letra_nif_run|].
  repeat split; try reflexivity.
  - rewrite identificar_documento_frame. reflexivity.
  - rewrite validar_letra_frame. reflexivity.
  - rewrite validar_documento_frame. reflexivity.
Qed.

Lemma calcular_letra_nif_table_witness :
  (0 <= 12345678)%Z
  /\ calcular_letra_nif 12345678 init = (Ok (u "Z"), init).
Proof.
  split; [lia|].
  destruct (calcular_letra_nif_table 12345678) as (Hrun & _); [lia|].
  rewrite Hrun. reflexivity.
Defined.

(** Claim C7.  For a number of at most 8 digits, adding any multiple of 23
    that keeps the number non-negative does not change the letter. *)
Theorem calcular_letra_nif_periodic (n k : Z) :
  (0 <= n <= 99999999)%Z ->
  (0 <= n + 23 * k)%Z ->
  calcular_letra_nif (n + 23 * k) init = calcular_letra_nif n init.
Proof.
  intros _ _. rewrite !calcular_letra_nif_run.
  rewrite (Z.mul_comm 23 k), Z.mod_add by lia. reflexivity.
Qed.

Lemma calcular_letra_nif_periodic_witness :
  (0 <= 12345678 <= 99999999)%Z
  /\ (0 <= 12345678 + 23 * (-1000))%Z
  /\ calcular_letra_nif (12345678 + 23 * (-1000)) init
     = calcular_letra_nif 12345678 init.
Proof.
  split; [lia|]. split; [lia|].
  apply (calcular_letra_nif_periodic 12345678 (-1000)); lia.
Defined.

(** Claim C10.  On every integer, negative ones included, the remainder
    taken by [%] lies between 0 and 22, and [calcular_letra_nif] returns one
    character of the table without raising. *)
Theorem calcular_letra_nif_total (n : Z) :
  (0 <= n mod 23 <= 22)%Z
  /\ LETRAS_NIF init = u "TRWAGMYFPDXBNJZSQVHLCKE"
  /\ exists c,
       calcular_letra_nif n init = (Ok [c], init)
       /\ In c (LETRAS_NIF init).
Proof.
  pose proof (Z.mod_pos_bound n 23 eq_refl) as Hm.
  split; [lia|]. split; [reflexivity|].
  exists (nth (Z.to_nat (n mod 23)) (LETRAS_NIF init) 0%N).
  split; [apply calcular_letra_nif_run|].
  apply nth_In. change (List.length (LETRAS_NIF init)) with 23%nat. lia.
Qed.

(* ================================================================== *)
(** ** Checking the letter *)
(* ================================================================== *)

(** Parsing succeeds on the digits of a well-formed document. *)
Lemma int_nif_digits (doc : str) :
  nif_format Py_UNICODE_ISDECIMAL doc = true ->
  int (slice doc None (Some (-1)%Z)) = Ok (digits_value (firstn 8 doc)).
Proof.
  intros H. destruct (nif_format_parts _ _ H) as (Hs & _ & Hn & Hd).
  rewrite Hs. apply int_digits; [intros E; rewrite E in Hn; discriminate|lia|exact Hd].
Qed.

Lemma nie_digits_decimal (doc : str) :
  nie_format Py_UNICODE_ISDECIMAL doc = true ->
  forallb Py_UNICODE_ISDECIMAL (nie_digits doc) = true.
Proof.
  intros H. destruct (nie_format_parts _ _ H) as (_ & _ & _ & _ & _ & Hd).
  unfold nie_digits. rewrite forallb_app, Hd, andb_true_r.
  rewrite forallb_forall. intros x Hx. apply in_map_iff in Hx.
  destruct Hx as (y & <- & _). apply letter_digit_decimal.
Qed.

(** The NIE check is the NIF check of the letter-substituted number. *)
Lemma nie_checksum_is_nif_checksum (doc : str) :
  nie_format Py_UNICODE_ISDECIMAL doc = true ->
  nif_format Py_UNICODE_ISDECIMAL (nie_digits doc ++ skipn 8 doc) = true
  /\ validar_letra doc init
     = validar_letra (nie_digits doc ++ skipn 8 doc) init.
Proof.
  intros H. pose proof (nie_digits_decimal doc H) as Hd.
  assert (Hparts : firstn 8 (nie_digits doc ++ skipn 8 doc) = nie_digits doc
                   /\ skipn 8 (nie_digits doc ++ skipn 8 doc) = skipn 8 doc
                   /\ List.length (nie_digits doc ++ skipn 8 doc) = 9%nat
                   /\ forallb upper (skipn 8 doc) = true).
  { unfold nie_format in H. nine doc.
    repeat (apply andb_prop in H; destruct H as [H ?]).
    repeat split; try reflexivity. assumption. }
  destruct Hparts as (Hf & Hsk & Hlen & Hup).
  assert (Hnif : nif_format Py_UNICODE_ISDECIMAL (nie_digits doc ++ skipn 8 doc)
                 = true).
  { unfold nif_format. rewrite Hf, Hsk, Hlen, Hd, Hup. reflexivity. }
  split; [exact Hnif|].
  rewrite (validar_letra_nie doc H), (validar_letra_nif _ Hnif), Hf, Hsk.
  reflexivity.
Qed.

(** Claim C5.  When [identificar_documento] answers Desconocido,
    [validar_letra] returns False at once and raises nothing. *)
Theorem validar_letra_desconocido (doc : str) :
  identificar_documento doc init = (Ok Unknown, init) ->
  validar_letra doc init = (Ok false, init).
Proof. exact (unknown_letra_false doc). Qed.

Lemma validar_letra_desconocido_witness :
  identificar_documento (u "ABCDEFGHI") init = (Ok Unknown, init)
  /\ validar_letra (u "ABCDEFGHI") init = (Ok false, init).
Proof.
  split; [reflexivity|].
  apply (validar_letra_desconocido (u "ABCDEFGHI")). reflexivity.
Defined.

(** Claim C6 fails on the code.  The string 12345678Z followed by a line
    feed is classified NIF, because [$] also matches just before a final
    line feed; [doc[:-1]] is then 12345678Z, and [int] raises ValueError. *)
Theorem int_raises_after_nif_match :
  identificar_documento doc_12345678Z_lf init = (Ok NIF, init)
  /\ slice doc_12345678Z_lf None (Some (-1)%Z) = u "12345678Z"
  /\ int (slice doc_12345678Z_lf None (Some (-1)%Z)) = Raise ValueError
  /\ validar_letra doc_12345678Z_lf init = (Raise ValueError, init).
Proof. repeat split; vm_compute; reflexivity. Qed.

(** Claim C4 fails on the code.  The string X1234567L followed by a line
    feed is classified NIE; the leading X is mapped to 0, but [doc[1:-1]]
    is 1234567L, the number string is 01234567L, and [int] raises
    ValueError instead of the letter being compared. *)
Theorem validar_letra_nie_raises_after_line_feed :
  identificar_documento doc_X1234567L_lf init = (Ok NIE, init)
  /\ getitem doc_X1234567L_lf 0 = Ok (u "X")
  /\ dict_getitem conversion (u "X") = Ok (u "0")
  /\ u "0" ++ slice doc_X1234567L_lf (Some 1%Z) (Some (-1)%Z) = u "01234567L"
  /\ int (u "01234567L") = Raise ValueError
  /\ validar_letra doc_X1234567L_lf init = (Raise ValueError, init).
Proof. repeat split; vm_compute; reflexivity. Qed.

(* ================================================================== *)
(** ** Validation *)
(* ================================================================== *)

(** Claim C2 fails on the code.  [validar_documento] is not total: on
    12345678Z followed by a line feed the type is NIF, the format check
    holds, and the letter check raises ValueError, so no message is
    returned. *)
Theorem validar_documento_raises_after_line_feed :
  identificar_documento doc_12345678Z_lf init = (Ok NIF, init)
  /\ validar_formato doc_12345678Z_lf init = (Ok true, init)
  /\ validar_letra doc_12345678Z_lf init = (Raise ValueError, init)
  /\ validar_documento doc_12345678Z_lf init = (Raise ValueError, init).
Proof. repeat split; vm_compute; reflexivity. Qed.

(** Claim C8.  Validating 12345678Z gives type NIF and a valid document:
    the digits parse to 12345678, 12345678 mod 23 is 14, and the table has
    Z at index 14. *)
Theorem validar_documento_12345678Z :
  validar_documento (u "12345678Z") init
  = (Ok (u "El documento '12345678Z' es un NIF válido."), init)
  /\ u "El documento '12345678Z' es un NIF válido."
     = message (u "12345678Z") (Outcome NIF true)
  /\ identificar_documento (u "12345678Z") init = (Ok NIF, init)
  /\ validar_formato (u "12345678Z") init = (Ok true, init)
  /\ validar_letra (u "12345678Z") init = (Ok true, init)
  /\ int (slice (u "12345678Z") None (Some (-1)%Z)) = Ok 12345678%Z
  /\ (12345678 mod 23 = 14)%Z
  /\ getitem (LETRAS_NIF init) 14 = Ok (u "Z").
Proof. repeat split; vm_compute; reflexivity. Qed.

(* ================================================================== *)
(** ** The slices after a final line feed *)
(* ================================================================== *)

Lemma transform_decimals_app (ds s : str) :
  forallb Py_UNICODE_ISDECIMAL ds = true ->
  TransformDecimalAndSpaceToASCII (ds ++ s)
  = map ascii_of_decimal ds ++ TransformDecimalAndSpaceToASCII s.
Proof.
  induction ds as [|c ds IH]; [reflexivity|].
  cbn [forallb]. intros H. apply andb_prop in H. destruct H as [Hc Hds].
  cbn [app TransformDecimalAndSpaceToASCII map]. rewrite (IH Hds).
  destruct (N.ltb_spec c 127) as [Hlt|Hge].
  - f_equal. unfold ascii_of_decimal.
    rewrite isdecimal_low in Hc by lia.
    rewrite todecimal_low by lia. rewrite Hc.
    unfold ascii_digit in Hc. reflect_cmp. lia.
  - rewrite (decimal_not_space c Hc). unfold ascii_of_decimal.
    unfold Py_UNICODE_ISDECIMAL in Hc.
    destruct (Py_UNICODE_TODECIMAL c); [reflexivity|discriminate].
Qed.

Lemma transform_decimals_then (ds : str) (l : N) :
  forallb Py_UNICODE_ISDECIMAL ds = true ->
  (l < 127)%N ->
  TransformDecimalAndSpaceToASCII (ds ++ [l]) = map ascii_of_decimal ds ++ [l].
Proof.
  intros Hds Hl. rewrite (transform_decimals_app ds [l] Hds).
  cbn. destruct (N.ltb_spec l 127); [reflexivity|lia].
Qed.

Lemma scan_digits_stop (b : list N) (l : N) (r : list N) :
  forall prev acc n,
    prev <> 0x5f%N ->
    forallb is_ascii_digit b = true ->
    is_ascii_digit l = false ->
    l <> 0x5f%N ->
    scan_digits (b ++ l :: r) prev acc n
    = Some (fold_left (fun a c => 10 * a + Z.of_N (c - 0x30))%Z b acc,
            (n + N.of_nat (List.length b))%N, l :: r).
Proof.
  induction b as [|c b IH]; intros prev acc n Hprev Hb Hl Hl'.
  - cbn [app scan_digits fold_left List.length]. rewrite Hl.
    destruct (N.eqb_spec l 0x5f); [contradiction|].
    destruct (N.eqb_spec prev 0x5f); [contradiction|].
    rewrite N.add_0_r. reflexivity.
  - cbn [forallb] in Hb. apply andb_prop in Hb. destruct Hb as [Hc Hb].
    cbn [app scan_digits]. rewrite Hc.
    assert (Hne : c <> 0x5f%N) by (unfold is_ascii_digit in Hc; reflect_cmp; lia).
    destruct (N.eqb_spec c 0x5f); [contradiction|].
    rewrite IH by assumption. cbn [fold_left List.length].
    f_equal. f_equal. f_equal. lia.
Qed.

(** [int] rejects a run of decimal digits followed by a letter. *)
Lemma int_digits_then_letter (ds : str) (l : N) :
  forallb Py_UNICODE_ISDECIMAL ds = true ->
  upper l = true ->
  int (ds ++ [l]) = Raise ValueError.
Proof.
  intros Hds Hl. unfold upper in Hl. reflect_cmp.
  unfold int. rewrite transform_decimals_then by (try assumption; lia).
  assert (Hb : forallb is_ascii_digit (map ascii_of_decimal ds) = true).
  { rewrite forallb_forall. intros x Hx. apply in_map_iff in Hx.
    destruct Hx as (c & <- & Hc). apply ascii_of_decimal_digit.
    rewrite forallb_forall in Hds. exact (Hds c Hc). }
  set (b := map ascii_of_decimal ds) in *.
  assert (Hld : is_ascii_digit l = false).
  { unfold is_ascii_digit. destruct (N.leb_spec l 57); [lia|]. apply andb_false_r. }
  assert (Hls : Py_ISSPACE l = false).
  { unfold Py_ISSPACE. split_cmp; try lia; reflexivity. }
  unfold PyLong_FromString.
  assert (Hskip : skip_space (b ++ [l]) = b ++ [l]).
  { destruct b as [|c b']; cbn [app skip_space]; [rewrite Hls; reflexivity|].
    cbn [forallb] in Hb. apply andb_prop in Hb. destruct Hb as [Hc _].
    unfold Py_ISSPACE, is_ascii_digit in *. reflect_cmp.
    split_cmp; try lia; reflexivity. }
  rewrite Hskip.
  assert (Hhd : exists c r, b ++ [l] = c :: r
                            /\ c <> 0x2b%N /\ c <> 0x2d%N /\ c <> 0x5f%N).
  { destruct b as [|c b']; cbn [app].
    - exists l, []. repeat split; lia.
    - cbn [forallb] in Hb. apply andb_prop in Hb. destruct Hb as [Hc _].
      unfold is_ascii_digit in Hc. reflect_cmp.
      exists c, (b' ++ [l]). repeat split; lia. }
  destruct Hhd as (c & r & Hcr & H1 & H2 & H3).
  rewrite Hcr.
  destruct (N.eqb_spec c 0x2b); [contradiction|].
  destruct (N.eqb_spec c 0x2d); [contradiction|].
  cbn [hd]. destruct (N.eqb_spec c 0x5f); [contradiction|].
  rewrite <- Hcr.
  rewrite scan_digits_stop by (try assumption; lia).
  cbn [skip_space]. rewrite Hls.
  destruct (_ =? 0)%N; [reflexivity|].
  destruct (_ <? _)%N; reflexivity.
Qed.

Ltac ten doc :=
  destruct doc as [|? [|? [|? [|? [|? [|? [|? [|? [|? [|? [|? ?]]]]]]]]]]];
  try discriminate.

(** The pieces the letter check takes from a match followed by a line
    feed: the slices are one character off. *)
Lemma line_feed_parts (doc : str) :
  List.length (removelast doc) = 9%nat ->
  doc <> [] ->
  slice doc None (Some (-1)%Z) = firstn 8 doc ++ firstn 1 (skipn 8 doc)
  /\ slice doc (Some 1%Z) (Some (-1)%Z)
     = firstn 7 (skipn 1 doc) ++ firstn 1 (skipn 8 doc)
  /\ getitem doc 0 = Ok (firstn 1 doc)
  /\ firstn 8 (removelast doc) = firstn 8 doc
  /\ skipn 8 (removelast doc) = firstn 1 (skipn 8 doc)
  /\ firstn 1 (removelast doc) = firstn 1 doc
  /\ firstn 7 (skipn 1 (removelast doc)) = firstn 7 (skipn 1 doc).
Proof.
  intros H Hne. ten doc; try contradiction.
  repeat split; reflexivity.
Qed.

Lemma format_upper (digit : N -> bool) (doc : str) :
  nif_format digit doc = true \/ nie_format digit doc = true ->
  exists l, skipn 8 doc = [l] /\ upper l = true
            /\ List.length doc = 9%nat.
Proof.
  unfold nif_format, nie_format. intros [H|H]; nine doc;
    repeat (apply andb_prop in H; destruct H as [H ?]);
    cbn [skipn forallb] in *; rewrite andb_true_r in *;
    eexists; repeat split; assumption.
Qed.

Lemma validar_letra_line_feed_nif (doc : str) :
  ends_in_line_feed doc = true ->
  nif_format Py_UNICODE_ISDECIMAL (removelast doc) = true ->
  validar_letra doc init = (Raise ValueError, init).
Proof.
  intros Hlf H.
  destruct (format_upper _ _ (or_introl H)) as (l & Hl & Hup & Hlen).
  assert (Hne : doc <> []) by (intros ->; discriminate).
  destruct (line_feed_parts doc Hlen Hne) as (Hs & _ & _ & H8 & Hsk & _ & _).
  destruct (nif_format_parts _ _ H) as (_ & _ & _ & Hd).
  unfold validar_letra, bind. rewrite identificar_documento_run.
  rewrite match_nif_spec, Hlf, H, orb_true_r.
  change (str_eqb NIF (u "NIF")) with true. cbv iota.
  unfold lift. rewrite Hs, <- Hsk, Hl, <- H8.
  rewrite (int_digits_then_letter _ l Hd Hup). reflexivity.
Qed.

Lemma validar_letra_line_feed_nie (doc : str) :
  ends_in_line_feed doc = true ->
  nie_format Py_UNICODE_ISDECIMAL (removelast doc) = true ->
  validar_letra doc init = (Raise ValueError, init).
Proof.
  intros Hlf H.
  destruct (format_upper _ _ (or_intror H)) as (l & Hl & Hup & Hlen).
  assert (Hne : doc <> []) by (intros ->; discriminate).
  destruct (line_feed_parts doc Hlen Hne) as (_ & Hs & H0 & _ & Hsk & H1 & H7).
  destruct (nie_format_parts _ _ H) as (_ & _ & _ & Hc & _ & _).
  pose proof (nie_digits_decimal _ H) as Hd.
  assert (Hnif : truthy (match_ (pattern_nif init) doc) = false).
  { destruct (truthy (match_ (pattern_nif init) doc)) eqn:E; [|reflexivity].
    exfalso. apply (patterns_exclusive doc E).
    rewrite match_nie_spec, Hlf, H, orb_true_r. reflexivity. }
  unfold validar_letra, bind. rewrite identificar_documento_run.
  rewrite Hnif, match_nie_spec, Hlf, H, orb_true_r.
  change (str_eqb NIE (u "NIF")) with false.
  change (str_eqb NIE (u "NIE")) with true. cbv iota.
  unfold lift. rewrite H0, <- H1, Hc, Hs, <- H7, <- Hsk, Hl.
  rewrite app_assoc. fold (nie_digits (removelast doc)).
  rewrite (int_digits_then_letter _ l Hd Hup). reflexivity.
Qed.

Lemma format_no_line_feed (digit : N -> bool) (doc : str) :
  nif_format digit doc = true \/ nie_format digit doc = true ->
  ends_in_line_feed doc = false.
Proof.
  intros H. destruct (format_upper _ _ H) as (l & Hl & Hup & Hlen).
  nine doc. cbn [skipn] in Hl. injection Hl as ->.
  unfold ends_in_line_feed. cbn [last]. unfold upper in Hup. reflect_cmp.
  apply N.eqb_neq. lia.
Qed.

(** What [validar_letra] does on every string. *)
Lemma validar_letra_closed (doc : str) :
  validar_letra doc init
  = (if matched_before_line_feed doc then Raise ValueError
     else Ok (letter_matches doc), init).
Proof.
  unfold matched_before_line_feed, letter_matches.
  destruct (nif_format Py_UNICODE_ISDECIMAL doc) eqn:Fnif.
  { rewrite (format_no_line_feed _ _ (or_introl Fnif)). cbn [andb].
    apply validar_letra_nif. exact Fnif. }
  destruct (nie_format Py_UNICODE_ISDECIMAL doc) eqn:Fnie.
  { rewrite (format_no_line_feed _ _ (or_intror Fnie)). cbn [andb].
    apply validar_letra_nie. exact Fnie. }
  destruct (ends_in_line_feed doc) eqn:Hlf; cbn [andb].
  - destruct (nif_format _ (removelast doc)) eqn:Lnif; cbn [orb].
    { apply validar_letra_line_feed_nif; assumption. }
    destruct (nie_format _ (removelast doc)) eqn:Lnie.
    { apply validar_letra_line_feed_nie; assumption. }
    apply unknown_letra_false. rewrite identificar_documento_run.
    rewrite match_nif_spec, match_nie_spec, Fnif, Fnie, Lnif, Lnie, Hlf.
    reflexivity.
  - apply unknown_letra_false. rewrite identificar_documento_run.
    rewrite match_nif_spec, match_nie_spec, Fnif, Fnie, Hlf.
    reflexivity.
Qed.


(* ================================================================== *)
(** ** Every string *)
(* ================================================================== *)

Lemma identificar_documento_closed (doc : str) :
  identificar_documento doc init
  = (Ok (if nif_format Py_UNICODE_ISDECIMAL doc
            || ends_in_line_feed doc
               && nif_format Py_UNICODE_ISDECIMAL (removelast doc)
         then NIF
         else if nie_format Py_UNICODE_ISDECIMAL doc
                 || ends_in_line_feed doc
                    && nie_format Py_UNICODE_ISDECIMAL (removelast doc)
         then NIE else Unknown), init).
Proof.
  rewrite identificar_documento_run, match_nif_spec, match_nie_spec.
  reflexivity.
Qed.

Lemma validar_documento_compose (doc : str) (self : object) (tipo : str) :
  identificar_documento doc self = (Ok tipo, self) ->
  validar_documento doc self
  = if str_eqb tipo Unknown then (Ok (message doc OutcomeUnknown), self)
    else match validar_letra doc self with
         | (Ok letra, _) => (Ok (message doc (Outcome tipo letra)), self)
         | (Raise e, _) => (Raise e, self)
         end.
Proof.
  intros Hid. pose proof (validar_letra_frame doc self) as Hfr.
  pose proof Hid as Hrun. rewrite identificar_documento_run in Hrun.
  pose proof (validar_formato_run doc self) as Hfo.
  unfold validar_documento, bind. rewrite Hid.
  destruct (truthy (match_ (pattern_nif self) doc));
    [|destruct (truthy (match_ (pattern_nie self) doc))];
    injection Hrun as <-; cbn [orb] in Hfo.
  - change (str_eqb NIF (u "Desconocido")) with false.
    change (str_eqb NIF Unknown) with false. cbv beta iota. rewrite Hfo.
    destruct (validar_letra doc self) as [[[|]|e] self']; cbn [snd] in Hfr;
      subst self'; reflexivity.
  - change (str_eqb NIE (u "Desconocido")) with false.
    change (str_eqb NIE Unknown) with false. cbv beta iota. rewrite Hfo.
    destruct (validar_letra doc self) as [[[|]|e] self']; cbn [snd] in Hfr;
      subst self'; reflexivity.
  - reflexivity.
Qed.

Lemma validar_documento_closed (doc : str) :
  validar_documento doc init
  = (if matched_before_line_feed doc then Raise ValueError
     else Ok (message doc (outcome_of doc)), init).
Proof.
  rewrite (validar_documento_compose doc init _ (identificar_documento_closed doc)).
  rewrite validar_letra_closed. unfold outcome_of, matched_before_line_feed.
  destruct (nif_format Py_UNICODE_ISDECIMAL doc) eqn:Fnif.
  { rewrite (format_no_line_feed _ _ (or_introl Fnif)). reflexivity. }
  destruct (nie_format Py_UNICODE_ISDECIMAL doc) eqn:Fnie.
  { rewrite (format_no_line_feed _ _ (or_intror Fnie)). reflexivity. }
  cbn [orb]. destruct (ends_in_line_feed doc); cbn [andb]; [|reflexivity].
  destruct (nif_format _ (removelast doc)); [reflexivity|].
  destruct (nie_format _ (removelast doc)); reflexivity.
Qed.

(** X1. On every string [identificar_documento] returns, and it answers NIF
    (NIE) exactly when the string is in NIF (NIE) format or is such a
    string followed by one line feed; otherwise it answers Desconocido. *)
Theorem identificar_documento_every_string (doc : str) :
  exists tipo,
    identificar_documento doc init = (Ok tipo, init)
    /\ (tipo = NIF <->
        nif_format Py_UNICODE_ISDECIMAL doc = true
        \/ (ends_in_line_feed doc = true
            /\ nif_format Py_UNICODE_ISDECIMAL (removelast doc) = true))
    /\ (tipo = NIE <->
        nie_format Py_UNICODE_ISDECIMAL doc = true
        \/ (ends_in_line_feed doc = true
            /\ nie_format Py_UNICODE_ISDECIMAL (removelast doc) = true))
    /\ (tipo <> NIF /\ tipo <> NIE <-> tipo = Unknown).
Proof.
  pose proof (identificar_documento_closed doc) as Hid.
  pose proof (patterns_exclusive doc) as Hex.
  rewrite match_nif_spec, match_nie_spec in Hex.
  destruct (nif_format Py_UNICODE_ISDECIMAL doc);
    destruct (nie_format Py_UNICODE_ISDECIMAL doc);
    destruct (ends_in_line_feed doc);
    destruct (nif_format Py_UNICODE_ISDECIMAL (removelast doc));
    destruct (nie_format Py_UNICODE_ISDECIMAL (removelast doc));
    cbn [orb andb] in *;
    try (destruct (Hex eq_refl eq_refl));
    eexists; (split; [exact Hid|]);
    repeat split; intros;
    repeat match goal with
      | H : _ \/ _ |- _ => destruct H
      | H : _ /\ _ |- _ => destruct H
      end;
    try discriminate; try congruence; auto.
Qed.

(** X2. [validar_formato] is true exactly when [identificar_documento]
    does not answer Desconocido, whatever patterns the object holds. *)
Theorem validar_formato_iff_identified (doc : str) (self : object) :
  exists tipo,
    identificar_documento doc self = (Ok tipo, self)
    /\ validar_formato doc self = (Ok (negb (str_eqb tipo Unknown)), self).
Proof.
  rewrite identificar_documento_run, validar_formato_run.
  destruct (truthy (match_ (pattern_nif self) doc));
    [|destruct (truthy (match_ (pattern_nie self) doc))];
    eexists; split; reflexivity.
Qed.

(** X3. The result of [validar_documento] is fixed by the type and by
    [validar_letra] alone: Desconocido gives the invalid-format message,
    otherwise the message says valid or invalid as [validar_letra]
    returned, and an exception of [validar_letra] comes out unchanged.  The
    format test in between never decides. *)
Theorem validar_documento_from_type_and_letter (doc : str) (self : object) :
  exists tipo,
    identificar_documento doc self = (Ok tipo, self)
    /\ validar_documento doc self
       = if str_eqb tipo Unknown
         then (Ok (message doc OutcomeUnknown), self)
         else match validar_letra doc self with
              | (Ok letra, _) => (Ok (message doc (Outcome tipo letra)), self)
              | (Raise e, _) => (Raise e, self)
              end.
Proof.
  eexists. split; [apply identificar_documento_run|].
  apply validar_documento_compose. apply identificar_documento_run.
Qed.

(** X4. [validar_letra] and [validar_documento] raise exactly on a NIF or
    NIE followed by one line feed, and then it is ValueError; they raise
    nothing else, and on every other string they return. *)
Theorem exceptions_exactly_after_line_feed (doc : str) :
  (validar_letra doc init = (Raise ValueError, init)
   <-> matched_before_line_feed doc = true)
  /\ (validar_documento doc init = (Raise ValueError, init)
      <-> matched_before_line_feed doc = true)
  /\ (forall e, fst (validar_letra doc init) = Raise e
                \/ fst (validar_documento doc init) = Raise e ->
                e = ValueError)
  /\ (matched_before_line_feed doc = false <->
      exists letra mensaje,
        validar_letra doc init = (Ok letra, init)
        /\ validar_documento doc init = (Ok mensaje, init)).
Proof.
  rewrite validar_letra_closed, validar_documento_closed.
  destruct (matched_before_line_feed doc); repeat split; intros;
    try reflexivity; try discriminate.
  - destruct H as [H|H]; cbn in H; congruence.
  - destruct H as (? & ? & H & _). discriminate.
  - destruct H as [H|H]; cbn in H; discriminate.
  - eexists _, _. split; reflexivity.
Qed.

Lemma format_length (digit : N -> bool) (doc : str) :
  nif_format digit doc = true \/ nie_format digit doc = true ->
  List.length doc = 9%nat.
Proof.
  intros H. destruct (format_upper _ _ H) as (l & _ & _ & Hlen). exact Hlen.
Qed.

Lemma length_removelast_pred (doc : str) :
  List.length (removelast doc) = pred (List.length doc).
Proof.
  induction doc as [|c [|c' doc] IH]; [reflexivity|reflexivity|].
  change (removelast (c :: c' :: doc)) with (c :: removelast (c' :: doc)).
  cbn [List.length] in *. rewrite IH. reflexivity.
Qed.

(** X5. A string whose length is neither 9 nor 10, the empty string
    included, is Desconocido for every method: the format test and the
    letter test return False and the validation returns the invalid-format
    message; nothing is raised. *)
Theorem other_lengths_unknown (doc : str) :
  List.length doc <> 9%nat ->
  List.length doc <> 10%nat ->
  identificar_documento doc init = (Ok Unknown, init)
  /\ validar_formato doc init = (Ok false, init)
  /\ validar_letra doc init = (Ok false, init)
  /\ validar_documento doc init = (Ok (message doc OutcomeUnknown), init).
Proof.
  intros H9 H10.
  assert (F : forall d, List.length d <> 9%nat ->
                        nif_format Py_UNICODE_ISDECIMAL d = false
                        /\ nie_format Py_UNICODE_ISDECIMAL d = false).
  { intros d Hd. split.
    - destruct (nif_format _ d) eqn:E; [|reflexivity].
      destruct (Hd (format_length _ _ (or_introl E))).
    - destruct (nie_format _ d) eqn:E; [|reflexivity].
      destruct (Hd (format_length _ _ (or_intror E))). }
  destruct (F doc H9) as [Fnif Fnie].
  assert (Hr : List.length (removelast doc) <> 9%nat)
    by (rewrite length_removelast_pred; lia).
  destruct (F _ Hr) as [Lnif Lnie].
  assert (Hid : identificar_documento doc init = (Ok Unknown, init)).
  { rewrite identificar_documento_closed, Fnif, Fnie, Lnif, Lnie.
    rewrite !andb_false_r. reflexivity. }
  split; [exact Hid|]. split; [|split].
  - rewrite validar_formato_run, match_nif_spec, match_nie_spec.
    rewrite Fnif, Fnie, Lnif, Lnie, !andb_false_r. reflexivity.
  - apply unknown_letra_false. exact Hid.
  - rewrite (validar_documento_compose doc init _ Hid). reflexivity.
Qed.

Lemma other_lengths_unknown_witness :
  List.length (@nil N) <> 9%nat
  /\ List.length (@nil N) <> 10%nat
  /\ validar_documento [] init = (Ok (message [] OutcomeUnknown), init).
Proof.
  split; [discriminate|]. split; [discriminate|].
  apply (other_lengths_unknown []); discriminate.
Defined.

Lemma upper_not_decimal (c : N) :
  upper c = true -> Py_UNICODE_ISDECIMAL c = false.
Proof.
  unfold upper. intros H. reflect_cmp. rewrite isdecimal_low by lia.
  unfold ascii_digit. destruct (N.leb_spec c 57); [lia|]. apply andb_false_r.
Qed.

Lemma format_chars (doc : str) :
  nif_format Py_UNICODE_ISDECIMAL doc = true
  \/ nie_format Py_UNICODE_ISDECIMAL doc = true ->
  forallb (fun c => Py_UNICODE_ISDECIMAL c || upper c) doc = true.
Proof.
  assert (X : forall c, xyz c = true -> upper c = true).
  { intros c H. unfold xyz in H. unfold upper.
    repeat (apply orb_prop in H; destruct H as [H|H]);
      reflect_cmp; subst; reflexivity. }
  unfold nif_format, nie_format. intros [H|H]; nine doc;
    repeat (apply andb_prop in H; destruct H as [H ?]);
    cbn [firstn skipn forallb] in *;
    repeat match goal with
      | H : (_ && _) = true |- _ => apply andb_prop in H; destruct H
      end;
    repeat match goal with
      | H : xyz _ = true |- _ => apply X in H
      | H : ?b = true |- context [?b] => rewrite H
      end;
    rewrite ?orb_true_r; reflexivity.
Qed.

(** X6. A string that contains anywhere a character that is neither a
    decimal digit, nor an uppercase ASCII letter, nor a line feed (a
    lowercase letter, a blank, a hyphen) is Desconocido, and its validation
    returns the invalid-format message. *)
Theorem foreign_character_unknown (doc : str) :
  existsb foreign doc = true ->
  identificar_documento doc init = (Ok Unknown, init)
  /\ validar_documento doc init = (Ok (message doc OutcomeUnknown), init).
Proof.
  intros H. apply existsb_exists in H. destruct H as (c & Hin & Hc).
  unfold foreign in Hc. apply andb_prop in Hc. destruct Hc as [Hc Hlf].
  apply andb_prop in Hc. destruct Hc as [Hd Hu].
  apply negb_true_iff in Hd, Hu, Hlf.
  assert (F : forall d, In c d ->
                        nif_format Py_UNICODE_ISDECIMAL d = false
                        /\ nie_format Py_UNICODE_ISDECIMAL d = false).
  { intros d Hcd.
    assert (G : ~ (nif_format Py_UNICODE_ISDECIMAL d = true
                   \/ nie_format Py_UNICODE_ISDECIMAL d = true)).
    { intros G. apply format_chars in G. rewrite forallb_forall in G.
      specialize (G c Hcd). rewrite Hd, Hu in G. discriminate. }
    split; [destruct (nif_format _ d)|destruct (nie_format _ d)];
      try reflexivity; exfalso; apply G; auto. }
  destruct (F doc Hin) as [Fnif Fnie].
  assert (Hid : identificar_documento doc init = (Ok Unknown, init)).
  { rewrite identificar_documento_closed, Fnif, Fnie. cbn [orb].
    destruct (ends_in_line_feed doc) eqn:E; [|reflexivity]. cbn [andb].
    assert (Hne : doc <> []) by (intros ->; destruct Hin).
    rewrite (app_removelast_last 0%N Hne) in Hin.
    apply in_app_or in Hin. destruct Hin as [Hin|[Hin|[]]].
    - destruct (F _ Hin) as [-> ->]. reflexivity.
    - unfold ends_in_line_feed in E. rewrite Hin in E. congruence. }
  split; [exact Hid|].
  rewrite (validar_documento_compose doc init _ Hid). reflexivity.
Qed.

Lemma foreign_character_unknown_witness :
  existsb foreign (u "12345678-Z") = true
  /\ identificar_documento (u "12345678-Z") init = (Ok Unknown, init).
Proof.
  split; [reflexivity|].
  apply (foreign_character_unknown (u "12345678-Z")). reflexivity.
Defined.

(** X15. For a given document the five messages differ: from the message
    one reads back whether the type was Desconocido, NIF or NIE and whether
    the document was valid. *)
Theorem message_tells_outcome (doc : str) (o1 o2 : outcome) :
  reportable o1 -> reportable o2 ->
  message doc o1 = message doc o2 -> o1 = o2.
Proof.
  intros R1 R2 H.
  destruct o1 as [|t1 [|]], o2 as [|t2 [|]]; cbn [reportable] in *;
    repeat match goal with
      | H : _ \/ _ |- _ => destruct H
      end; subst; try reflexivity; exfalso;
    unfold message in H;
    apply app_inv_head in H; apply app_inv_head in H;
    vm_compute in H; discriminate.
Qed.

Lemma message_tells_outcome_witness :
  reportable (Outcome NIF true) /\ reportable (Outcome NIF true)
  /\ Outcome NIF true = Outcome NIF true.
Proof.
  split; [left; reflexivity|]. split; [left; reflexivity|].
  apply (message_tells_outcome (u "12345678Z")); try (left; reflexivity).
  reflexivity.
Defined.

(* ================================================================== *)
(** ** The table and the checksum *)
(* ================================================================== *)

Lemma letras_nodup : NoDup (LETRAS_NIF init).
Proof.
  let t := eval vm_compute in (LETRAS_NIF init) in
  change (LETRAS_NIF init) with t.
  repeat (constructor; [cbn [In]; intros H;
    repeat (destruct H as [H|H]; [discriminate H|]); exact H|]).
  constructor.
Qed.

Lemma letras_injective (i j : Z) :
  (0 <= i < 23)%Z -> (0 <= j < 23)%Z ->
  nth (Z.to_nat i) (LETRAS_NIF init) 0%N = nth (Z.to_nat j) (LETRAS_NIF init) 0%N ->
  i = j.
Proof.
  intros Hi Hj H.
  pose proof (proj1 (NoDup_nth (LETRAS_NIF init) 0%N) letras_nodup
                (Z.to_nat i) (Z.to_nat j)) as Hinj.
  change (List.length (LETRAS_NIF init)) with 23%nat in Hinj.
  assert (Z.to_nat i = Z.to_nat j) by (apply Hinj; try lia; exact H).
  lia.
Qed.

Lemma expected_letter_inj (n m : Z) :
  expected_letter n = expected_letter m <-> (n mod 23 = m mod 23)%Z.
Proof.
  unfold expected_letter. split.
  - intros [= H]. apply letras_injective; try exact H;
      apply Z.mod_pos_bound; lia.
  - intros ->. reflexivity.
Qed.

(** X10. Two numbers get the same letter exactly when they are congruent
    modulo 23: the 23 letters of the table are pairwise different. *)
Theorem calcular_letra_nif_same_letter_iff (n m : Z) :
  calcular_letra_nif n init = calcular_letra_nif m init
  <-> (n mod 23 = m mod 23)%Z.
Proof.
  rewrite !calcular_letra_nif_run. split.
  - intros [= H]. apply letras_injective; try exact H;
      apply Z.mod_pos_bound; lia.
  - intros ->. reflexivity.
Qed.

Lemma letras_upper : forallb upper (LETRAS_NIF init) = true.
Proof. reflexivity. Qed.

Lemma expected_letter_upper (n : Z) :
  exists l, expected_letter n = [l] /\ upper l = true.
Proof.
  unfold expected_letter. eexists. split; [reflexivity|].
  pose proof letras_upper as H. rewrite forallb_forall in H. apply H.
  apply nth_In. change (List.length (LETRAS_NIF init)) with 23%nat.
  pose proof (Z.mod_pos_bound n 23 eq_refl). lia.
Qed.

Lemma str_eqb_eq (a b : str) : str_eqb a b = true <-> a = b.
Proof.
  unfold str_eqb. destruct (list_eq_dec N.eq_dec a b); split; intros;
    try reflexivity; try assumption; try discriminate; contradiction.
Qed.

Lemma eight_then_letter (digit : N -> bool) (ds : str) (l : N) :
  List.length ds = 8%nat ->
  firstn 8 (ds ++ [l]) = ds
  /\ skipn 8 (ds ++ [l]) = [l]
  /\ nif_format digit (ds ++ [l]) = forallb digit ds && upper l.
Proof.
  intros H.
  destruct ds as [|? [|? [|? [|? [|? [|? [|? [|? [|? ?]]]]]]]]];
    try discriminate.
  unfold nif_format. cbn [app firstn skipn List.length Nat.eqb forallb].
  rewrite !andb_true_r. repeat split; reflexivity.
Qed.

(** The letter check on 8 decimal digits followed by an uppercase letter. *)
Lemma validar_letra_eight (ds : str) (l : N) :
  List.length ds = 8%nat ->
  forallb Py_UNICODE_ISDECIMAL ds = true ->
  upper l = true ->
  validar_letra (ds ++ [l]) init
  = (Ok (str_eqb [l] (expected_letter (digits_value ds))), init).
Proof.
  intros Hlen Hd Hu.
  destruct (eight_then_letter Py_UNICODE_ISDECIMAL ds l Hlen) as (Hf & Hs & Hn).
  rewrite Hd, Hu in Hn. rewrite (validar_letra_nif _ Hn), Hf, Hs. reflexivity.
Qed.

Lemma formats_head_clash (ds : str) (l : N) :
  List.length ds = 8%nat ->
  forallb Py_UNICODE_ISDECIMAL ds = true ->
  nie_format Py_UNICODE_ISDECIMAL (ds ++ [l]) = true ->
  False.
Proof.
  intros Hlen Hd H.
  destruct ds as [|c ds]; [discriminate|].
  cbn [forallb] in Hd. apply andb_prop in Hd. destruct Hd as [Hc _].
  unfold nie_format in H. cbn [app firstn forallb] in H.
  repeat (apply andb_prop in H; destruct H as [H ?]).
  rewrite andb_true_r in *.
  match goal with X : xyz c = true |- _ =>
    rewrite (xyz_not_decimal c X) in Hc end.
  discriminate.
Qed.

(** X9. Every run of 8 decimal digits has exactly one control letter: one
    uppercase letter makes the document pass the letter check, and no other
    character does. *)
Theorem control_letter_exists_unique (ds : str) :
  List.length ds = 8%nat ->
  forallb Py_UNICODE_ISDECIMAL ds = true ->
  exists l,
    upper l = true
    /\ validar_letra (ds ++ [l]) init = (Ok true, init)
    /\ forall l', validar_letra (ds ++ [l']) init = (Ok true, init) -> l' = l.
Proof.
  intros Hlen Hd.
  destruct (expected_letter_upper (digits_value ds)) as (l & Hl & Hu).
  exists l. split; [exact Hu|]. split.
  - rewrite (validar_letra_eight ds l Hlen Hd Hu), Hl.
    unfold str_eqb. destruct (list_eq_dec N.eq_dec [l] [l]); [reflexivity|contradiction].
  - intros l' H. rewrite validar_letra_closed in H.
    destruct (matched_before_line_feed (ds ++ [l'])); [discriminate|].
    injection H as H. unfold letter_matches in H.
    destruct (eight_then_letter Py_UNICODE_ISDECIMAL ds l' Hlen) as (Hf & Hs & Hn).
    destruct (nif_format _ (ds ++ [l'])) eqn:Fnif.
    + rewrite Hf, Hs, Hl in H. apply str_eqb_eq in H. congruence.
    + destruct (nie_format _ (ds ++ [l'])) eqn:Fnie; [|discriminate].
      exfalso. exact (formats_head_clash ds l' Hlen Hd Fnie).
Qed.

Lemma digits_fold_shift (ds : str) :
  forallb Py_UNICODE_ISDECIMAL ds = true ->
  forall acc,
    fold_left
      (fun acc c =>
         match Py_UNICODE_TODECIMAL c with
         | Some d => 10 * acc + Z.of_N d
         | None => acc
         end%Z) ds acc
    = (acc * 10 ^ Z.of_nat (List.length ds) + digits_value ds)%Z.
Proof.
  unfold digits_value.
  induction ds as [|c ds IH]; intros H acc.
  - cbn. lia.
  - cbn [forallb] in H. apply andb_prop in H. destruct H as [Hc Hds].
    cbn [fold_left List.length].
    unfold Py_UNICODE_ISDECIMAL in Hc.
    destruct (Py_UNICODE_TODECIMAL c) as [d|]; [|discriminate].
    rewrite (IH Hds (10 * acc + Z.of_N d)%Z), (IH Hds (10 * 0 + Z.of_N d)%Z).
    rewrite Nat2Z.inj_succ, Z.pow_succ_r by lia. ring.
Qed.

Lemma digits_value_app (a b : str) :
  forallb Py_UNICODE_ISDECIMAL b = true ->
  digits_value (a ++ b)
  = (digits_value a * 10 ^ Z.of_nat (List.length b) + digits_value b)%Z.
Proof.
  intros Hb. unfold digits_value at 1. rewrite fold_left_app.
  rewrite (digits_fold_shift b Hb). reflexivity.
Qed.

Lemma digits_value_cons (x : N) (b : str) (d : N) :
  Py_UNICODE_TODECIMAL x = Some d ->
  forallb Py_UNICODE_ISDECIMAL b = true ->
  digits_value (x :: b)
  = (Z.of_N d * 10 ^ Z.of_nat (List.length b) + digits_value b)%Z.
Proof.
  intros Hx Hb. unfold digits_value at 1. cbn [fold_left]. rewrite Hx.
  rewrite (digits_fold_shift b Hb). reflexivity.
Qed.

Lemma coprime_23_pow_10 (k : nat) : Z.gcd 23 (10 ^ Z.of_nat k) = 1%Z.
Proof. apply Z.coprime_pow_r; [lia|reflexivity]. Qed.

(** Numbers that differ by [c * 10^k], with [c] no multiple of 23, have
    different remainders modulo 23. *)
Lemma different_remainders (v1 v2 c : Z) (k : nat) :
  (v1 - v2 = c * 10 ^ Z.of_nat k)%Z ->
  ~ (23 | c)%Z ->
  (v1 mod 23 <> v2 mod 23)%Z.
Proof.
  intros Hdiff Hc Hmod. apply Hc.
  apply (Z.gauss 23 (10 ^ Z.of_nat k) c); [|apply coprime_23_pow_10].
  rewrite Z.mul_comm, <- Hdiff.
  exists (v1 / 23 - v2 / 23)%Z.
  pose proof (Z.div_mod v1 23). pose proof (Z.div_mod v2 23). lia.
Qed.

Lemma decimal_value (c : N) :
  Py_UNICODE_ISDECIMAL c = true ->
  exists d, Py_UNICODE_TODECIMAL c = Some d /\ (d < 10)%N.
Proof.
  unfold Py_UNICODE_ISDECIMAL.
  destruct (Py_UNICODE_TODECIMAL c) as [d|] eqn:E; [intros _|discriminate].
  exists d. split; [reflexivity|]. exact (todecimal_lt_10 c d E).
Qed.

Lemma forallb_middle (f : N -> bool) (a b : str) (x : N) :
  forallb f (a ++ x :: b) = true ->
  forallb f a = true /\ f x = true /\ forallb f b = true.
Proof.
  rewrite forallb_app. cbn [forallb]. intros H.
  apply andb_prop in H. destruct H as [Ha H].
  apply andb_prop in H. tauto.
Qed.

(** A digit replaced by a digit of another value changes the letter. *)
Lemma changed_digit_changes_letter (a b : str) (x y : N) :
  forallb Py_UNICODE_ISDECIMAL (a ++ x :: b) = true ->
  Py_UNICODE_ISDECIMAL y = true ->
  Py_UNICODE_TODECIMAL y <> Py_UNICODE_TODECIMAL x ->
  expected_letter (digits_value (a ++ x :: b))
  <> expected_letter (digits_value (a ++ y :: b)).
Proof.
  intros H Hy Hxy Heq. apply expected_letter_inj in Heq. revert Heq.
  destruct (forallb_middle _ _ _ _ H) as (Ha & Hx & Hb).
  destruct (decimal_value x Hx) as (dx & Ex & Bx).
  destruct (decimal_value y Hy) as (dy & Ey & By).
  apply (different_remainders _ _ (Z.of_N dx - Z.of_N dy) (List.length b)).
  - rewrite !digits_value_app by (cbn [forallb]; rewrite ?Hx, ?Hy, Hb; reflexivity).
    rewrite (digits_value_cons x b dx Ex Hb), (digits_value_cons y b dy Ey Hb).
    cbn [List.length]. rewrite !Nat2Z.inj_succ, !Z.pow_succ_r by lia. ring.
  - intros [q Hq]. apply Hxy. rewrite Ex, Ey. f_equal. lia.
Qed.

(** Two neighbouring digits of different values, swapped, change the
    letter. *)
Lemma swapped_digits_change_letter (a b : str) (x y : N) :
  forallb Py_UNICODE_ISDECIMAL (a ++ x :: y :: b) = true ->
  Py_UNICODE_TODECIMAL x <> Py_UNICODE_TODECIMAL y ->
  expected_letter (digits_value (a ++ x :: y :: b))
  <> expected_letter (digits_value (a ++ y :: x :: b)).
Proof.
  intros H Hxy Heq. apply expected_letter_inj in Heq. revert Heq.
  destruct (forallb_middle _ _ _ _ H) as (Ha & Hx & Hyb).
  cbn [forallb] in Hyb. apply andb_prop in Hyb. destruct Hyb as [Hy Hb].
  destruct (decimal_value x Hx) as (dx & Ex & Bx).
  destruct (decimal_value y Hy) as (dy & Ey & By).
  apply (different_remainders _ _ (9 * (Z.of_N dx - Z.of_N dy)) (List.length b)).
  - rewrite !digits_value_app by (cbn [forallb]; rewrite ?Hx, ?Hy, Hb; reflexivity).
    rewrite (digits_value_cons x (y :: b) dx Ex),
            (digits_value_cons y (x :: b) dy Ey)
      by (cbn [forallb]; rewrite ?Hx, ?Hy, Hb; reflexivity).
    rewrite (digits_value_cons y b dy Ey Hb), (digits_value_cons x b dx Ex Hb).
    cbn [List.length]. rewrite !Nat2Z.inj_succ, !Z.pow_succ_r by lia. ring.
  - intros [q Hq]. apply Hxy. rewrite Ex, Ey. f_equal. lia.
Qed.

Lemma valid_eight_inv (ds : str) (l : N) :
  List.length ds = 8%nat ->
  forallb Py_UNICODE_ISDECIMAL ds = true ->
  validar_letra (ds ++ [l]) init = (Ok true, init) ->
  upper l = true /\ [l] = expected_letter (digits_value ds).
Proof.
  intros Hlen Hd H. rewrite validar_letra_closed in H.
  destruct (matched_before_line_feed (ds ++ [l])); [discriminate|].
  injection H as H. unfold letter_matches in H.
  destruct (eight_then_letter Py_UNICODE_ISDECIMAL ds l Hlen) as (Hf & Hs & Hn).
  destruct (nif_format _ (ds ++ [l])) eqn:Fnif.
  - rewrite Hd in Hn. cbn [andb] in Hn. split; [congruence|].
    rewrite Hf, Hs in H. apply str_eqb_eq in H. exact H.
  - destruct (nie_format _ (ds ++ [l])) eqn:Fnie; [|discriminate].
    destruct (formats_head_clash ds l Hlen Hd Fnie).
Qed.

Lemma invalid_eight (ds : str) (l : N) :
  List.length ds = 8%nat ->
  forallb Py_UNICODE_ISDECIMAL ds = true ->
  upper l = true ->
  [l] <> expected_letter (digits_value ds) ->
  validar_letra (ds ++ [l]) init = (Ok false, init).
Proof.
  intros Hlen Hd Hu Hne. rewrite (validar_letra_eight ds l Hlen Hd Hu).
  destruct (str_eqb _ _) eqn:E; [|reflexivity].
  apply str_eqb_eq in E. contradiction.
Qed.

(** X11. A valid NIF in which one digit is replaced by a digit of another
    value no longer passes the letter check. *)
Theorem nif_single_digit_error_detected (a b : str) (x y l : N) :
  List.length (a ++ x :: b) = 8%nat ->
  forallb Py_UNICODE_ISDECIMAL (a ++ x :: b) = true ->
  Py_UNICODE_ISDECIMAL y = true ->
  Py_UNICODE_TODECIMAL y <> Py_UNICODE_TODECIMAL x ->
  validar_letra ((a ++ x :: b) ++ [l]) init = (Ok true, init) ->
  validar_letra ((a ++ y :: b) ++ [l]) init = (Ok false, init).
Proof.
  intros Hlen Hd Hy Hxy Hv.
  destruct (valid_eight_inv _ l Hlen Hd Hv) as [Hu Hl].
  destruct (forallb_middle _ _ _ _ Hd) as (Ha & _ & Hb).
  apply invalid_eight; try assumption.
  - rewrite length_app in *. exact Hlen.
  - rewrite forallb_app. cbn [forallb]. rewrite Ha, Hy, Hb. reflexivity.
  - rewrite Hl. apply changed_digit_changes_letter; assumption.
Qed.

Lemma nif_single_digit_error_detected_witness :
  validar_letra (([] ++ 0x31%N :: u "2345678") ++ [0x5a%N]) init
  = (Ok true, init)
  /\ validar_letra (([] ++ 0x39%N :: u "2345678") ++ [0x5a%N]) init
     = (Ok false, init).
Proof.
  split; [reflexivity|].
  apply (nif_single_digit_error_detected [] (u "2345678") 0x31 0x39 0x5a)%N;
    try reflexivity.
  discriminate.
Defined.

(** X12. A valid NIF in which two neighbouring digits of different values
    are swapped no longer passes the letter check. *)
Theorem nif_transposition_detected (a b : str) (x y l : N) :
  List.length (a ++ x :: y :: b) = 8%nat ->
  forallb Py_UNICODE_ISDECIMAL (a ++ x :: y :: b) = true ->
  Py_UNICODE_TODECIMAL x <> Py_UNICODE_TODECIMAL y ->
  validar_letra ((a ++ x :: y :: b) ++ [l]) init = (Ok true, init) ->
  validar_letra ((a ++ y :: x :: b) ++ [l]) init = (Ok false, init).
Proof.
  intros Hlen Hd Hxy Hv.
  destruct (valid_eight_inv _ l Hlen Hd Hv) as [Hu Hl].
  destruct (forallb_middle _ _ _ _ Hd) as (Ha & Hx & Hyb).
  cbn [forallb] in Hyb. apply andb_prop in Hyb. destruct Hyb as [Hy Hb].
  apply invalid_eight; try assumption.
  - rewrite length_app in *. exact Hlen.
  - rewrite forallb_app. cbn [forallb]. rewrite Ha, Hy, Hx, Hb. reflexivity.
  - rewrite Hl. apply swapped_digits_change_letter; assumption.
Qed.

Lemma nif_transposition_detected_witness :
  validar_letra ((u "123" ++ 0x34%N :: 0x35%N :: u "678") ++ [0x5a%N]) init
  = (Ok true, init)
  /\ validar_letra ((u "123" ++ 0x35%N :: 0x34%N :: u "678") ++ [0x5a%N]) init
     = (Ok false, init).
Proof.
  split; [reflexivity|].
  apply (nif_transposition_detected (u "123") (u "678") 0x34 0x35 0x5a)%N;
    try reflexivity.
  discriminate.
Defined.

Lemma seven_then_letter (digit : N -> bool) (p : N) (ds : str) (l : N) :
  List.length ds = 7%nat ->
  skipn 8 (p :: ds ++ [l]) = [l]
  /\ nie_digits (p :: ds ++ [l]) = letter_digit p :: ds
  /\ nie_format digit (p :: ds ++ [l]) = xyz p && forallb digit ds && upper l
  /\ (xyz p = true -> nif_format Py_UNICODE_ISDECIMAL (p :: ds ++ [l]) = false).
Proof.
  intros H.
  destruct ds as [|? [|? [|? [|? [|? [|? [|? [|? ?]]]]]]]];
    try discriminate.
  unfold nie_format, nie_digits, nif_format.
  cbn [app firstn skipn List.length Nat.eqb forallb map].
  rewrite !andb_true_r. repeat split; try reflexivity.
  intros Hp. rewrite (xyz_not_decimal p Hp). reflexivity.
Qed.

(** The letter check on one of X, Y, Z, 7 decimal digits and a letter. *)
Lemma valid_seven_inv (p : N) (ds : str) (l : N) :
  xyz p = true ->
  List.length ds = 7%nat ->
  forallb Py_UNICODE_ISDECIMAL ds = true ->
  validar_letra (p :: ds ++ [l]) init = (Ok true, init) ->
  upper l = true
  /\ [l] = expected_letter (digits_value (letter_digit p :: ds)).
Proof.
  intros Hp Hlen Hd H. rewrite validar_letra_closed in H.
  destruct (matched_before_line_feed (p :: ds ++ [l])); [discriminate|].
  injection H as H. unfold letter_matches in H.
  destruct (seven_then_letter Py_UNICODE_ISDECIMAL p ds l Hlen)
    as (Hs & Hn & Hf & Hnif).
  rewrite (Hnif Hp) in H.
  destruct (nie_format _ (p :: ds ++ [l])) eqn:Fnie; [|discriminate].
  rewrite Hp, Hd in Hf. cbn [andb] in Hf. split; [congruence|].
  rewrite Hs, Hn in H. apply str_eqb_eq in H. exact H.
Qed.

Lemma invalid_seven (p : N) (ds : str) (l : N) :
  xyz p = true ->
  List.length ds = 7%nat ->
  forallb Py_UNICODE_ISDECIMAL ds = true ->
  upper l = true ->
  [l] <> expected_letter (digits_value (letter_digit p :: ds)) ->
  validar_letra (p :: ds ++ [l]) init = (Ok false, init).
Proof.
  intros Hp Hlen Hd Hu Hne.
  destruct (seven_then_letter Py_UNICODE_ISDECIMAL p ds l Hlen)
    as (Hs & Hn & Hf & _).
  rewrite Hp, Hd, Hu in Hf. rewrite (validar_letra_nie _ Hf), Hs, Hn.
  destruct (str_eqb _ _) eqn:E; [|reflexivity].
  apply str_eqb_eq in E. contradiction.
Qed.

(** X13. A valid NIE no longer passes the letter check when its leading
    letter is replaced by another of X, Y, Z, or when one of its digits is
    replaced by a digit of another value. *)
Theorem nie_single_error_detected (p : N) (a b : str) (x l : N) :
  xyz p = true ->
  List.length (a ++ x :: b) = 7%nat ->
  forallb Py_UNICODE_ISDECIMAL (a ++ x :: b) = true ->
  validar_letra (p :: (a ++ x :: b) ++ [l]) init = (Ok true, init) ->
  (forall q, xyz q = true -> q <> p ->
     validar_letra (q :: (a ++ x :: b) ++ [l]) init = (Ok false, init))
  /\ (forall y, Py_UNICODE_ISDECIMAL y = true ->
        Py_UNICODE_TODECIMAL y <> Py_UNICODE_TODECIMAL x ->
        validar_letra (p :: (a ++ y :: b) ++ [l]) init = (Ok false, init)).
Proof.
  intros Hp Hlen Hd Hv.
  destruct (valid_seven_inv p _ l Hp Hlen Hd Hv) as [Hu Hl].
  destruct (forallb_middle _ _ _ _ Hd) as (Ha & Hx & Hb).
  split.
  - intros q Hq Hqp. apply invalid_seven; try assumption.
    rewrite Hl.
    apply (changed_digit_changes_letter [] (a ++ x :: b)
             (letter_digit p) (letter_digit q)).
    + cbn [app forallb]. rewrite letter_digit_decimal, Hd. reflexivity.
    + apply letter_digit_decimal.
    + unfold xyz in Hp, Hq.
      repeat (apply orb_prop in Hp; destruct Hp as [Hp|Hp]);
        repeat (apply orb_prop in Hq; destruct Hq as [Hq|Hq]);
        reflect_cmp; subst; try contradiction; discriminate.
  - intros y Hy Hxy. apply invalid_seven; try assumption.
    + rewrite length_app in *. exact Hlen.
    + rewrite forallb_app. cbn [forallb]. rewrite Ha, Hy, Hb. reflexivity.
    + rewrite Hl.
      apply (changed_digit_changes_letter (letter_digit p :: a) b x y);
        try assumption.
      cbn [app forallb]. rewrite letter_digit_decimal, Hd. reflexivity.
Qed.

Lemma nie_single_error_detected_witness :
  validar_letra (0x58%N :: ([] ++ 0x31%N :: u "234567") ++ [0x4c%N]) init
  = (Ok true, init)
  /\ validar_letra (0x59%N :: ([] ++ 0x31%N :: u "234567") ++ [0x4c%N]) init
     = (Ok false, init).
Proof.
  split; [reflexivity|].
  apply (nie_single_error_detected 0x58 [] (u "234567") 0x31 0x4c)%N;
    try reflexivity.
  discriminate.
Defined.

Lemma digits_value_bounds (ds : str) :
  forallb Py_UNICODE_ISDECIMAL ds = true ->
  (0 <= digits_value ds < 10 ^ Z.of_nat (List.length ds))%Z.
Proof.
  induction ds as [|c ds IH] using rev_ind; intros H; [cbn; lia|].
  rewrite forallb_app in H. apply andb_prop in H. destruct H as [Hds Hc].
  cbn [forallb] in Hc. rewrite andb_true_r in Hc.
  destruct (decimal_value c Hc) as (d & Ed & Bd).
  rewrite digits_value_app by (cbn [forallb]; rewrite Hc; reflexivity).
  rewrite (digits_value_cons c [] d Ed eq_refl).
  rewrite length_app. cbn [List.length].
  replace (Z.of_nat (List.length ds + 1)) with (Z.succ (Z.of_nat (List.length ds))) by lia.
  rewrite Z.pow_succ_r by lia.
  specialize (IH Hds). change (digits_value []) with 0%Z.
  change (10 ^ Z.of_nat 0)%Z with 1%Z. change (10 ^ Z.of_nat 1)%Z with 10%Z.
  lia.
Qed.

(** X7. On a 9-character NIF the digits always parse, to the number the 8
    digits denote (leading zeros allowed), and the letter check is the
    comparison of the ninth character with the table entry of that number
    modulo 23. *)
Theorem nif_digits_parse_and_letter_check (doc : str) :
  nif_format Py_UNICODE_ISDECIMAL doc = true ->
  int (slice doc None (Some (-1)%Z)) = Ok (digits_value (firstn 8 doc))
  /\ (0 <= digits_value (firstn 8 doc) <= 99999999)%Z
  /\ validar_letra doc init
     = (Ok (str_eqb (skipn 8 doc)
              (expected_letter (digits_value (firstn 8 doc)))), init).
Proof.
  intros H. split; [exact (int_nif_digits doc H)|].
  split; [|exact (validar_letra_nif doc H)].
  destruct (nif_format_parts _ _ H) as (_ & _ & Hlen & Hd).
  pose proof (digits_value_bounds (firstn 8 doc) Hd) as B.
  rewrite Hlen in B. change (10 ^ Z.of_nat 8)%Z with 100000000%Z in B. lia.
Qed.

Lemma nif_digits_parse_and_letter_check_witness :
  nif_format Py_UNICODE_ISDECIMAL (u "00000001R") = true
  /\ int (slice (u "00000001R") None (Some (-1)%Z)) = Ok 1%Z.
Proof.
  split; [reflexivity|].
  destruct (nif_digits_parse_and_letter_check (u "00000001R") eq_refl) as (H & _).
  rewrite H. reflexivity.
Defined.

(** X8. On a 9-character NIE the letter check never raises and equals the
    letter check of the NIF obtained by writing 0, 1 or 2 for the leading
    X, Y or Z. *)
Theorem nie_check_is_nif_check_of_substitution (doc : str) :
  nie_format Py_UNICODE_ISDECIMAL doc = true ->
  nif_format Py_UNICODE_ISDECIMAL (nie_digits doc ++ skipn 8 doc) = true
  /\ validar_letra doc init
     = (Ok (str_eqb (skipn 8 doc)
              (expected_letter (digits_value (nie_digits doc)))), init)
  /\ validar_letra doc init
     = validar_letra (nie_digits doc ++ skipn 8 doc) init.
Proof.
  intros H. destruct (nie_checksum_is_nif_checksum doc H) as [Hn He].
  split; [exact Hn|]. split; [exact (validar_letra_nie doc H)|exact He].
Qed.

Lemma nie_check_is_nif_check_of_substitution_witness :
  nie_format Py_UNICODE_ISDECIMAL (u "Y1234567X") = true
  /\ validar_letra (u "Y1234567X") init = validar_letra (u "11234567X") init.
Proof.
  split; [reflexivity|].
  destruct (nie_check_is_nif_check_of_substitution (u "Y1234567X") eq_refl)
    as (_ & _ & H).
  rewrite H. reflexivity.
Defined.

Lemma control_letter_exists_unique_witness :
  List.length (u "12345678") = 8%nat
  /\ exists l,
       validar_letra (u "12345678" ++ [l]) init = (Ok true, init)
       /\ forall l', validar_letra (u "12345678" ++ [l']) init = (Ok true, init)
                     -> l' = l.
Proof.
  split; [reflexivity|].
  destruct (control_letter_exists_unique (u "12345678") eq_refl eq_refl)
    as (l & _ & Hv & Hu).
  exists l. split; [exact Hv|exact Hu].
Defined.

(* ================================================================== *)
(** ** Digits outside ASCII *)
(* ================================================================== *)

Lemma todecimal_ascii_of_decimal (c : N) :
  Py_UNICODE_ISDECIMAL c = true ->
  Py_UNICODE_TODECIMAL (ascii_of_decimal c) = Py_UNICODE_TODECIMAL c
  /\ ascii_digit (ascii_of_decimal c) = true.
Proof.
  intros Hc. destruct (decimal_value c Hc) as (d & Ed & Bd).
  unfold ascii_of_decimal. rewrite Ed.
  assert (A : ascii_digit (48 + d) = true).
  { unfold ascii_digit. apply andb_true_intro.
    split; apply N.leb_le; lia. }
  split; [|exact A].
  rewrite todecimal_low by lia. rewrite A. f_equal. lia.
Qed.

Lemma digits_value_ascii (ds : str) :
  forallb Py_UNICODE_ISDECIMAL ds = true ->
  digits_value (map ascii_of_decimal ds) = digits_value ds.
Proof.
  unfold digits_value. generalize 0%Z.
  induction ds as [|c ds IH]; intros acc H; [reflexivity|].
  cbn [forallb] in H. apply andb_prop in H. destruct H as [Hc Hds].
  cbn [map fold_left].
  rewrite (proj1 (todecimal_ascii_of_decimal c Hc)). apply IH. exact Hds.
Qed.

Lemma to_ascii_digits_decimal (ds : str) :
  forallb Py_UNICODE_ISDECIMAL ds = true ->
  to_ascii_digits ds = map ascii_of_decimal ds
  /\ forallb ascii_digit (to_ascii_digits ds) = true.
Proof.
  intros H. assert (E : to_ascii_digits ds = map ascii_of_decimal ds).
  { unfold to_ascii_digits. apply map_ext_in. intros c Hc.
    rewrite forallb_forall in H. rewrite (H c Hc). reflexivity. }
  split; [exact E|]. rewrite E, forallb_forall. intros x Hx.
  apply in_map_iff in Hx. destruct Hx as (c & <- & Hc).
  rewrite forallb_forall in H.
  exact (proj2 (todecimal_ascii_of_decimal c (H c Hc))).
Qed.

Lemma to_ascii_digits_letters (ls : str) :
  forallb upper ls = true -> to_ascii_digits ls = ls.
Proof.
  intros H. unfold to_ascii_digits. rewrite <- (map_id ls) at 2.
  apply map_ext_in. intros c Hc. rewrite forallb_forall in H.
  rewrite (upper_not_decimal c (H c Hc)). reflexivity.
Qed.

Lemma xyz_upper (c : N) : xyz c = true -> upper c = true.
Proof.
  intros H. unfold xyz in H. unfold upper.
  repeat (apply orb_prop in H; destruct H as [H|H]);
    reflect_cmp; subst; reflexivity.
Qed.

(** X14. A NIF or NIE written with decimal digits outside ASCII is treated
    as the same document written with the ASCII digits of the same values:
    that spelling is in the same format with ASCII digits only, and the
    letter check gives the same answer. *)
Theorem ascii_spelling_same_answer (doc : str) :
  nif_format Py_UNICODE_ISDECIMAL doc = true
  \/ nie_format Py_UNICODE_ISDECIMAL doc = true ->
  nif_format ascii_digit (to_ascii_digits doc)
  = nif_format Py_UNICODE_ISDECIMAL doc
  /\ nie_format ascii_digit (to_ascii_digits doc)
     = nie_format Py_UNICODE_ISDECIMAL doc
  /\ validar_letra (to_ascii_digits doc) init = validar_letra doc init.
Proof.
  intros H.
  assert (Hlen : List.length (to_ascii_digits doc) = List.length doc)
    by apply length_map.
  assert (Hf : forall n, firstn n (to_ascii_digits doc)
                         = to_ascii_digits (firstn n doc))
    by (intros; apply firstn_map).
  assert (Hs : forall n, skipn n (to_ascii_digits doc)
                         = to_ascii_digits (skipn n doc))
    by (intros; apply skipn_map).
  destruct H as [H|H].
  - assert (Hnie : nie_format Py_UNICODE_ISDECIMAL doc = false).
    { destruct (nie_format _ doc) eqn:E; [|reflexivity].
      destruct (formats_exclusive doc H E). }
    pose proof H as H'. unfold nif_format in H'.
    repeat (apply andb_prop in H'; destruct H' as [H' ?]).
    destruct (to_ascii_digits_decimal _ H1) as [E8 A8].
    pose proof (to_ascii_digits_letters _ H0) as E1.
    assert (Hnif : nif_format ascii_digit (to_ascii_digits doc) = true).
    { unfold nif_format. rewrite Hlen, Hf, Hs, A8, E1, H', H0. reflexivity. }
    assert (Hnie' : nie_format ascii_digit (to_ascii_digits doc) = false).
    { destruct (nie_format ascii_digit (to_ascii_digits doc)) eqn:E;
        [|reflexivity].
      destruct (formats_exclusive _ (nif_format_ascii _ Hnif)
                  (nie_format_ascii _ E)). }
    rewrite Hnif, Hnie', H, Hnie. repeat split.
    rewrite (validar_letra_nif _ (nif_format_ascii _ Hnif)).
    rewrite (validar_letra_nif _ H), Hf, Hs, E8, E1, digits_value_ascii by assumption.
    reflexivity.
  - assert (Hnif : nif_format Py_UNICODE_ISDECIMAL doc = false).
    { destruct (nif_format _ doc) eqn:E; [|reflexivity].
      destruct (formats_exclusive doc E H). }
    pose proof H as H'. unfold nie_format in H'.
    repeat (apply andb_prop in H'; destruct H' as [H' ?]).
    destruct (to_ascii_digits_decimal _ H1) as [E7 A7].
    pose proof (to_ascii_digits_letters _ H0) as E1.
    assert (Hx : forallb upper (firstn 1 doc) = true).
    { rewrite forallb_forall in *. intros c Hc. apply xyz_upper. auto. }
    pose proof (to_ascii_digits_letters _ Hx) as E0.
    assert (Hs1 : forall n, firstn n (skipn 1 (to_ascii_digits doc))
                            = to_ascii_digits (firstn n (skipn 1 doc))).
    { intros. rewrite Hs. apply firstn_map. }
    assert (Hnie : nie_format ascii_digit (to_ascii_digits doc) = true).
    { unfold nie_format. rewrite Hlen, Hf, Hs1, Hs, A7, E1, E0, H', H0, H2.
      reflexivity. }
    assert (Hnif' : nif_format ascii_digit (to_ascii_digits doc) = false).
    { destruct (nif_format ascii_digit (to_ascii_digits doc)) eqn:E;
        [|reflexivity].
      destruct (formats_exclusive _ (nif_format_ascii _ E)
                  (nie_format_ascii _ Hnie)). }
    rewrite Hnie, Hnif', H, Hnif. repeat split.
    rewrite (validar_letra_nie _ (nie_format_ascii _ Hnie)).
    rewrite (validar_letra_nie _ H), Hs, E1. unfold nie_digits.
    rewrite Hf, Hs1, E0, E7.
    assert (V : forall m a,
               forallb Py_UNICODE_ISDECIMAL a = true ->
               digits_value (m ++ map ascii_of_decimal a) = digits_value (m ++ a)).
    { intros m a Ha. unfold digits_value. rewrite !fold_left_app.
      generalize (fold_left
        (fun acc c => match Py_UNICODE_TODECIMAL c with
                      | Some d => (10 * acc + Z.of_N d)%Z
                      | None => acc end) m 0%Z).
      induction a as [|c a IH]; intros acc; [reflexivity|].
      cbn [forallb] in Ha. apply andb_prop in Ha. destruct Ha as [Hc Ha].
      cbn [map fold_left].
      rewrite (proj1 (todecimal_ascii_of_decimal c Hc)). apply IH. exact Ha. }
    rewrite V by assumption. reflexivity.
Qed.

Lemma ascii_spelling_same_answer_witness :
  nif_format Py_UNICODE_ISDECIMAL doc_arabic_indic = true
  /\ to_ascii_digits doc_arabic_indic = u "12345678Z"
  /\ validar_letra (u "12345678Z") init = validar_letra doc_arabic_indic init.
Proof.
  split; [reflexivity|]. split; [reflexivity|].
  destruct (ascii_spelling_same_answer doc_arabic_indic (or_introl eq_refl))
    as (_ & _ & H).
  exact H.
Defined.

(* ================================================================== *)
(** ** The script *)
(* ================================================================== *)

Lemma message_encodable (doc : str) :
  encodable doc = true -> encodable (message doc (outcome_of doc)) = true.
Proof.
  intros H. unfold outcome_of, message, encodable in *.
  destruct (nif_format _ doc);
    [|destruct (nie_format _ doc)];
    try destruct (letter_matches doc);
    rewrite !forallb_app, H; reflexivity.
Qed.

(** The loop on one document that validates to a message. *)
Lemma for_print_step (doc : str) (rest : list str) (stdout : str) :
  matched_before_line_feed doc = false ->
  encodable doc = true ->
  for_print (doc :: rest) init stdout
  = for_print rest init (stdout ++ message doc (outcome_of doc) ++ [0xa%N]).
Proof.
  intros Hdoc Henc. cbn [for_print].
  rewrite validar_documento_closed, Hdoc. unfold print.
  rewrite (message_encodable doc Henc). reflexivity.
Qed.



(** X17. When a document of the list is a NIF or NIE followed by a line
    feed and none before it is, the loop ends there with ValueError: the
    lines of the documents before it are printed, nothing is printed for it
    or for the documents after it. *)
Theorem script_stops_at_first_exception
  (before after : list str) (doc : str) (stdout : str) :
  Forall (fun d => matched_before_line_feed d = false) before ->
  Forall (fun d => encodable d = true) before ->
  matched_before_line_feed doc = true ->
  for_print (before ++ doc :: after) init stdout
  = (Some (Validator ValueError), init,
     stdout
     ++ List.concat (map (fun d => message d (outcome_of d) ++ [0xa%N]) before)).
Proof.
  intros Hb. revert stdout.
  induction Hb as [|d before Hd _ IH]; intros stdout Henc Hdoc.
  - cbn [app for_print map List.concat].
    rewrite validar_documento_closed, Hdoc, app_nil_r. reflexivity.
  - inversion Henc as [|? ? He Hes]; subst. cbn [app].
    rewrite (for_print_step d _ stdout Hd He), (IH _ Hes Hdoc).
    cbn [map List.concat]. rewrite <- !app_assoc. reflexivity.
Qed.

Lemma script_stops_at_first_exception_witness :
  matched_before_line_feed doc_12345678Z_lf = true
  /\ for_print ([u "12345678A"] ++ doc_12345678Z_lf :: [u "X1234567L"]) init []
     = (Some (Validator ValueError), init,
        u "El documento '12345678A' es un NIF inválido." ++ [0xa%N]).
Proof.
  split; [reflexivity|].
  rewrite (script_stops_at_first_exception
             [u "12345678A"] [u "X1234567L"] doc_12345678Z_lf []);
    [reflexivity|repeat constructor|repeat constructor|reflexivity].
Defined.
